(** * ResiliNet-Harness: the orchestration engine, embedded and verified

    A shallow embedding of [resilinet_harness/impairment.py],
    [resilinet_harness/topology.py], [resilinet_harness/validation.py] and of
    the profile table of [resilinet_harness/runner.py].

    Python code that mutates objects, logs, calls into the kernel and raises
    is written in a state-and-exception monad over a [world]: the kernel's
    namespaces, links and queueing disciplines, the manager object's
    registry, the log, the sequence of capability calls made so far, and a
    script of injected faults that lets any capability call fail.  The
    network control capability (pyroute2) and the packet I/O capability
    (scapy) are not part of the repository; their behaviour is given by a
    small reference model, stated next to each primitive. *)

From Stdlib Require Import Ascii String ZArith.
From stdpp Require Import gmap strings list pretty.

Set Warnings "-register-all".
Local Open Scope string_scope.
Local Open Scope Z_scope.

(* ================================================================== *)
(** ** Python values *)
(* ================================================================== *)

(** The values a profile dictionary can hold.  Floats are not part of the
    input universe (floating point is not modelled); the only floats that
    occur are the results of [float(...)], kept symbolic in [pyfloat]. *)
Inductive pyval :=
| PNone
| PBool (b : bool)
| PInt (z : Z)
| PStr (s : string)
| PDict (d : gmap string pyval).

(** The double nearest to an integer, or the double denoted by a literal. *)
Inductive pyfloat :=
| FloatOfInt (z : Z)
| FloatOfLiteral (s : string).

(** What a netem option can hold: a profile value passed through, or the
    result of a [float(...)] conversion. *)
Inductive netem_value :=
| NVal (v : pyval)
| NFloat (f : pyfloat).

Inductive exn_kind :=
| KException
| KValueError
| KTypeError
| KOverflowError
| KIndexError
| KAssertionError
| KOSError (errno : Z)
| KNetlinkError (code : Z).

(** An exception object; [exn_msg] is what [str(e)] returns. *)
Record exn := Exn { exn_kind_of : exn_kind; exn_msg : string }.

Inductive result (A : Type) :=
| Ok (a : A)
| Raise (e : exn).
Arguments Ok {A} a.
Arguments Raise {A} e.

Definition is_ok {A} (r : result A) : bool :=
  match r with Ok _ => true | Raise _ => false end.

(** Python truthiness, as used by [if latency:] and [if self.namespace:]. *)
Definition truthy (v : pyval) : bool :=
  match v with
  | PNone => false
  | PBool b => b
  | PInt z => negb (z =? 0)
  | PStr s => negb (String.eqb s "")
  | PDict d => negb (bool_decide (d = ∅))
  end.

(** [str(v)] for the values that reach it ([PDict] goes through [repr],
    which [apply_profile] never asks for). *)
Definition py_str (v : pyval) : string :=
  match v with
  | PNone => "None"
  | PBool true => "True"
  | PBool false => "False"
  | PInt z => pretty z
  | PStr s => s
  | PDict _ => "{...}"
  end.

(** *** The literal syntax accepted by [float(str)] (ASCII) *)

Definition is_digit (c : ascii) : bool :=
  let n := nat_of_ascii c in ((48 <=? n) && (n <=? 57))%nat.

Definition is_space (c : ascii) : bool :=
  let n := nat_of_ascii c in
  ((n =? 32) || ((9 <=? n) && (n <=? 13)) || ((28 <=? n) && (n <=? 31)))%nat.

Definition lower (c : ascii) : ascii :=
  let n := nat_of_ascii c in
  if ((65 <=? n) && (n <=? 90))%nat then ascii_of_nat (n + 32) else c.

(** Rest of a digit part once its first digit is read: digits, each
    optionally preceded by one underscore. *)
Fixpoint digits_tail (l : list ascii) : list ascii :=
  match l with
  | c :: l' =>
      if is_digit c then digits_tail l'
      else if Ascii.eqb c "_" then
        match l' with
        | d :: l'' => if is_digit d then digits_tail l'' else l
        | [] => l
        end
      else l
  | [] => []
  end.

Definition digitpart (l : list ascii) : option (list ascii) :=
  match l with
  | c :: l' => if is_digit c then Some (digits_tail l') else None
  | [] => None
  end.

Definition skip_sign (l : list ascii) : list ascii :=
  match l with
  | c :: l' => if Ascii.eqb c "+" || Ascii.eqb c "-" then l' else l
  | [] => []
  end.

Definition exponent_ok (l : list ascii) : bool :=
  match l with
  | [] => true
  | c :: l' =>
      if Ascii.eqb (lower c) "e" then
        match digitpart (skip_sign l') with
        | Some [] => true
        | _ => false
        end
      else false
  end.

Definition decimal_ok (l : list ascii) : bool :=
  match l with
  | c :: l' =>
      if Ascii.eqb c "." then
        match digitpart l' with
        | Some r => exponent_ok r
        | None => false
        end
      else
        match digitpart l with
        | Some (d :: r) =>
            if Ascii.eqb d "." then
              match digitpart r with
              | Some r' => exponent_ok r'
              | None => exponent_ok r
              end
            else exponent_ok (d :: r)
        | Some [] => true
        | None => false
        end
  | [] => false
  end.

Definition strip (l : list ascii) : list ascii :=
  let drop := fix drop (l : list ascii) :=
    match l with
    | c :: l' => if is_space c then drop l' else l
    | [] => []
    end in
  rev (drop (rev (drop l))).

Definition float_literal (s : string) : bool :=
  let body := skip_sign (strip (list_ascii_of_string s)) in
  let word := string_of_list_ascii (map lower body) in
  String.eqb word "inf" || String.eqb word "infinity" || String.eqb word "nan"
  || decimal_ok body.

(** [float(v)]: identity-like on numbers, literal syntax on strings,
    [TypeError] otherwise, [OverflowError] for an integer beyond the range
    of a double. *)
Definition py_float (v : pyval) : result pyfloat :=
  match v with
  | PInt z =>
      if Z.abs z <? 2 ^ 1024 - 2 ^ 970 then Ok (FloatOfInt z)
      else Raise (Exn KOverflowError "int too large to convert to float")
  | PBool b => Ok (FloatOfInt (if b then 1 else 0))
  | PStr s =>
      if float_literal s then Ok (FloatOfLiteral s)
      else Raise (Exn KValueError ("could not convert string to float: '" +:+ s +:+ "'"))
  | PNone =>
      Raise (Exn KTypeError "float() argument must be a string or a real number, not 'NoneType'")
  | PDict _ =>
      Raise (Exn KTypeError "float() argument must be a string or a real number, not 'dict'")
  end.

(** [d.get(k)] and [d.get(k, default)]. *)
Definition dict_get (d : gmap string pyval) (k : string) : pyval :=
  default PNone (d !! k).
Definition dict_get_default (d : gmap string pyval) (k : string) (dflt : pyval) : pyval :=
  default dflt (d !! k).

(** [s[-n:]]: the last [n] characters, the whole string when it is shorter. *)
Definition py_suffix (n : nat) (s : string) : string :=
  String.substring (String.length s - n) n s.

(* ================================================================== *)
(** ** The world: kernel, manager object, log, calls, faults *)
(* ================================================================== *)

(** A network interface.  [if_ns = None] is the default namespace. *)
Record iface := Iface {
  if_index : nat;
  if_name : string;
  if_ns : option string;
  if_peer : option nat;
  if_up : bool;
  if_addrs : list (string * Z);
  if_qdisc : option (gmap string netem_value)
}.

Record kernel := Kernel {
  k_netns : list string;
  k_links : list iface;
  k_next : nat
}.

(** The fields of a [NamespaceManager] object ([self.ndb] is open until
    [close()] is called on it). *)
Record NamespaceManager := Manager {
  created_namespaces : list string;
  created_interfaces : list string;
  ndb_closed : bool
}.

Inductive level := DEBUG | INFO | WARNING | ERROR.

(** A log record.  The one message that formats a whole profile dictionary
    keeps the dictionary instead of its [repr]. *)
Inductive log_entry :=
| Log (l : level) (msg : string)
| LogApplied (profile : gmap string pyval) (interface : string) (ns : option string).

Inductive packet :=
| TcpSyn (dst : string) (dport : Z)
| IcmpData (dst : string) (payload_size : Z).

(** How a unit of work run in a spawned process ends: it returns, it raises
    an [Exception], or the process is gone without either (killed, or left
    through something [except Exception] does not catch). *)
Inductive job_outcome (A : Type) :=
| Returned (a : A)
| Raised (e : exn)
| Died.
Arguments Returned {A} a.
Arguments Raised {A} e.
Arguments Died {A}.

(** Every call made to a capability or to the process machinery, in order. *)
Inductive call :=
| CNetNS (name : string)
| CIPRoute
| CLinkAdd (ifname peer : string)
| CLinkLookup (ns : option string) (ifname : string)
| CLinkSetNs (ns : option string) (index : nat) (target : string)
| CLinkUp (ns : option string) (index : nat)
| CAddrAdd (ns : option string) (index : nat) (address : string) (mask : Z)
| CLinkDel (ifname : string)
| CTcDel (ns : option string) (index : nat)
| CTcAdd (ns : option string) (index : nat) (options : gmap string netem_value)
| CNetnsRemove (name : string)
| CNdbClose
| CStart (ns_name : string)
| CJoin (ns_name : string)
| CTerminate (ns_name : string)
| CSleep (seconds : Z)
| COpen (path : string)
| CSetns (ns_name : string)
| CSniff (ns_name interface : string) (count : Z) (filter_expr : string) (timeout : Z)
| CSend (ns_name : string) (pkt : packet).

(** The packet I/O capability: what [sniff] yields, given the packets put on
    the wire so far, and how [send] ends. *)
Record packet_io := PacketIO {
  io_sniff : string -> string -> Z -> string -> Z -> list (string * packet) ->
             job_outcome (list packet);
  io_send : string -> packet -> job_outcome unit
}.

Record world := World {
  w_kernel : kernel;
  w_mgr : NamespaceManager;
  w_faults : list (option exn);
  w_log : list log_entry;
  w_calls : list call;
  w_io : packet_io;
  w_wire : list (string * packet)
}.

Definition set_kernel (k : kernel) (w : world) : world :=
  World k (w_mgr w) (w_faults w) (w_log w) (w_calls w) (w_io w) (w_wire w).
Definition set_mgr (m : NamespaceManager) (w : world) : world :=
  World (w_kernel w) m (w_faults w) (w_log w) (w_calls w) (w_io w) (w_wire w).
Definition set_faults (f : list (option exn)) (w : world) : world :=
  World (w_kernel w) (w_mgr w) f (w_log w) (w_calls w) (w_io w) (w_wire w).
Definition add_log (e : log_entry) (w : world) : world :=
  World (w_kernel w) (w_mgr w) (w_faults w) (w_log w ++ [e]) (w_calls w) (w_io w) (w_wire w).
Definition add_call (c : call) (w : world) : world :=
  World (w_kernel w) (w_mgr w) (w_faults w) (w_log w) (w_calls w ++ [c]) (w_io w) (w_wire w).
Definition add_wire (p : string * packet) (w : world) : world :=
  World (w_kernel w) (w_mgr w) (w_faults w) (w_log w) (w_calls w) (w_io w) (w_wire w ++ [p]).

(** *** The monad of Python statements *)

Definition M (A : Type) : Type := world -> result A * world.

Definition ret {A} (a : A) : M A := fun w => (Ok a, w).
Definition bind {A B} (m : M A) (f : A -> M B) : M B :=
  fun w => match m w with
           | (Ok a, w') => f a w'
           | (Raise e, w') => (Raise e, w')
           end.
Definition raise {A} (e : exn) : M A := fun w => (Raise e, w).
Definition lift {A} (r : result A) : M A := fun w => (r, w).

Declare Scope py_scope.
Delimit Scope py_scope with py.
Notation "x <- m ;; k" := (bind m (fun x => k))
  (at level 100, m at next level, right associativity) : py_scope.
Notation "m ;;; k" := (bind m (fun _ => k))
  (at level 100, right associativity) : py_scope.
Local Open Scope py_scope.

(** [try: body except <classes> as e: handler e]. *)
Definition try_except {A} (catches : exn -> bool) (body : M A) (handler : exn -> M A) : M A :=
  fun w => match body w with
           | (Ok a, w') => (Ok a, w')
           | (Raise e, w') => if catches e then handler e w' else (Raise e, w')
           end.

(** [except Exception]: every exception of the model. *)
Definition any_exception (e : exn) : bool := true.

(** [except OSError]. *)
Definition os_error (e : exn) : bool :=
  match exn_kind_of e with KOSError _ => true | _ => false end.

(** [for x in l: body x]. *)
Fixpoint for_each {A} (l : list A) (body : A -> M unit) : M unit :=
  match l with
  | [] => ret tt
  | x :: l' => body x ;;; for_each l' body
  end.

Definition logger (l : level) (msg : string) : M unit :=
  fun w => (Ok tt, add_log (Log l msg) w).

Definition note (c : call) : M unit := fun w => (Ok tt, add_call c w).

(** A capability call: recorded, then either the next injected fault is
    raised and the kernel is left alone, or the kernel's own behaviour
    [natural] decides. *)
Definition capability {A} (c : call) (natural : kernel -> result A * kernel) : M A :=
  fun w =>
    let w := add_call c w in
    let run (w : world) :=
      let '(r, k) := natural (w_kernel w) in (r, set_kernel k w) in
    match w_faults w with
    | Some e :: fs => (Raise e, set_faults fs w)
    | None :: fs => run (set_faults fs w)
    | [] => run w
    end.

(* ================================================================== *)
(** ** Reference model of the network control capability *)
(* ================================================================== *)

Definition named (ns : option string) (name : string) (l : iface) : bool :=
  bool_decide (if_ns l = ns) && String.eqb (if_name l) name.

Definition indexed (ns : option string) (idx : nat) (l : iface) : bool :=
  bool_decide (if_ns l = ns) && Nat.eqb (if_index l) idx.

Definition lookup_link (k : kernel) (ns : option string) (name : string) : list nat :=
  map if_index (List.filter (named ns name) (k_links k)).

Definition has_index (k : kernel) (ns : option string) (idx : nat) : bool :=
  existsb (indexed ns idx) (k_links k).

Definition update_link (ns : option string) (idx : nat) (f : iface -> iface)
    (k : kernel) : kernel :=
  Kernel (k_netns k)
         (map (fun l => if indexed ns idx l then f l else l) (k_links k))
         (k_next k).

Definition with_qdisc (q : option (gmap string netem_value)) (l : iface) : iface :=
  Iface (if_index l) (if_name l) (if_ns l) (if_peer l) (if_up l) (if_addrs l) q.

Definition has_qdisc (k : kernel) (ns : option string) (idx : nat) : bool :=
  existsb (fun l => indexed ns idx l && bool_decide (if_qdisc l ≠ None)) (k_links k).

(** The emulation configuration active on an endpoint, if any. *)
Definition active_config (k : kernel) (ns : option string) (name : string)
    : option (gmap string netem_value) :=
  match List.filter (named ns name) (k_links k) with
  | l :: _ => if_qdisc l
  | [] => None
  end.

Definition netlink_error {A} (code : Z) (msg : string) : result A :=
  Raise (Exn (KNetlinkError code) msg).

Definition loopback (ns : string) (idx : nat) : iface :=
  Iface idx "lo" (Some ns) None false [] None.

(** Removing a link removes its veth peer with it. *)
Definition drop_links (doomed : iface -> bool) (ls : list iface) : list iface :=
  let gone := map if_index (List.filter doomed ls) in
  List.filter
    (fun l => negb (doomed l)
              && negb (match if_peer l with
                       | Some p => bool_decide (p ∈ gone)
                       | None => false
                       end))
    ls.

(** [NetNS(name)]: opens the named namespace, creating it (with its
    loopback) when it does not exist yet. *)
Definition NetNS (name : string) : M (option string) :=
  capability (CNetNS name) (fun k =>
    if bool_decide (name ∈ k_netns k) then (Ok (Some name), k)
    else (Ok (Some name),
          Kernel (k_netns k ++ [name])
                 (k_links k ++ [loopback name (k_next k)])
                 (S (k_next k)))).

(** [IPRoute()]: a netlink socket on the default namespace.  It acts on no
    resource and is taken to succeed. *)
Definition IPRoute : M (option string) :=
  note CIPRoute ;;; ret None.

(** [ip.link_lookup(ifname=...)]. *)
Definition link_lookup (ip : option string) (ifname : string) : M (list nat) :=
  capability (CLinkLookup ip ifname) (fun k => (Ok (lookup_link k ip ifname), k)).

(** [ip.link('add', ifname=a, kind='veth', peer=b)]. *)
Definition link_add_veth (ifname peer : string) : M unit :=
  capability (CLinkAdd ifname peer) (fun k =>
    if String.eqb ifname peer
       || negb (bool_decide (lookup_link k None ifname = []))
       || negb (bool_decide (lookup_link k None peer = []))
    then (netlink_error 17 "File exists", k)
    else
      let i := k_next k in
      (Ok tt,
       Kernel (k_netns k)
              (k_links k ++ [Iface i ifname None (Some (S i)) false [] None;
                             Iface (S i) peer None (Some i) false [] None])
              (S (S i)))).

(** [ip.link('set', index=idx, net_ns_fd=target)]. *)
Definition link_set_ns (ip : option string) (idx : nat) (target : string) : M unit :=
  capability (CLinkSetNs ip idx target) (fun k =>
    match List.filter (indexed ip idx) (k_links k) with
    | [] => (netlink_error 19 "No such device", k)
    | l :: _ =>
        if negb (bool_decide (target ∈ k_netns k))
        then (Raise (Exn (KOSError 2) "No such file or directory"), k)
        else if negb (bool_decide (lookup_link k (Some target) (if_name l) = []))
        then (netlink_error 17 "File exists", k)
        else (Ok tt,
              update_link ip idx
                (fun l => Iface (if_index l) (if_name l) (Some target) (if_peer l)
                                 false [] (if_qdisc l)) k)
    end).

(** [ip.link('set', index=idx, state='up')]. *)
Definition link_set_up (ip : option string) (idx : nat) : M unit :=
  capability (CLinkUp ip idx) (fun k =>
    if has_index k ip idx
    then (Ok tt,
          update_link ip idx
            (fun l => Iface (if_index l) (if_name l) (if_ns l) (if_peer l)
                             true (if_addrs l) (if_qdisc l)) k)
    else (netlink_error 19 "No such device", k)).

(** [ip.addr('add', index=idx, address=a, mask=m)]. *)
Definition addr_add (ip : option string) (idx : nat) (address : string) (mask : Z) : M unit :=
  capability (CAddrAdd ip idx address mask) (fun k =>
    match List.filter (indexed ip idx) (k_links k) with
    | [] => (netlink_error 19 "No such device", k)
    | l :: _ =>
        if bool_decide ((address, mask) ∈ if_addrs l)
        then (netlink_error 17 "File exists", k)
        else (Ok tt,
              update_link ip idx
                (fun l => Iface (if_index l) (if_name l) (if_ns l) (if_peer l)
                                 (if_up l) (if_addrs l ++ [(address, mask)])
                                 (if_qdisc l)) k)
    end).

(** [ip.link('del', ifname=...)] on the default namespace. *)
Definition link_del (ifname : string) : M unit :=
  capability (CLinkDel ifname) (fun k =>
    if bool_decide (lookup_link k None ifname = [])
    then (netlink_error 19 "No such device", k)
    else (Ok tt,
          Kernel (k_netns k) (drop_links (named None ifname) (k_links k)) (k_next k))).

(** [ip.tc('del', 'root', idx)]: fails when there is nothing to delete. *)
Definition tc_del_root (ip : option string) (idx : nat) : M unit :=
  capability (CTcDel ip idx) (fun k =>
    if negb (has_index k ip idx) then (netlink_error 19 "No such device", k)
    else if negb (has_qdisc k ip idx)
    then (netlink_error 2 "No such file or directory", k)
    else (Ok tt, update_link ip idx (with_qdisc None) k)).

(** [ip.tc('add', 'netem', handle='1:', parent='root', dev=idx, **options)]:
    fails when a root queueing discipline is already installed. *)
Definition tc_add_netem (ip : option string) (idx : nat)
    (options : gmap string netem_value) : M unit :=
  capability (CTcAdd ip idx options) (fun k =>
    if negb (has_index k ip idx) then (netlink_error 19 "No such device", k)
    else if has_qdisc k ip idx then (netlink_error 17 "File exists", k)
    else (Ok tt, update_link ip idx (with_qdisc (Some options)) k)).

(** [netns.remove(name)]: the namespace goes, and with it the links inside
    it and their veth peers. *)
Definition netns_remove (name : string) : M unit :=
  capability (CNetnsRemove name) (fun k =>
    if bool_decide (name ∈ k_netns k)
    then (Ok tt,
          Kernel (List.filter (fun n => negb (String.eqb n name)) (k_netns k))
                 (drop_links (fun l => bool_decide (if_ns l = Some name)) (k_links k))
                 (k_next k))
    else (Raise (Exn (KOSError 2) "No such file or directory"), k)).

(* ================================================================== *)
(** ** impairment.py: NetworkConditioner *)
(* ================================================================== *)

(** [self.namespace] of a [NetworkConditioner]; [None] by default. *)
Definition namespace_truthy (namespace : option string) : bool :=
  match namespace with
  | Some s => negb (String.eqb s "")
  | None => false
  end.


(** [NetworkConditioner._get_ip_route]. *)
Definition _get_ip_route (namespace : option string) : M (option string) :=
  match namespace with
  | Some s => if namespace_truthy namespace then NetNS s else IPRoute
  | None => IPRoute
  end.


(** The first half of [apply_profile] (lines 38-61): the profile is parsed
    into [netem_options]. *)
Definition netem_options_of (interface : string) (profile : gmap string pyval)
    : M (gmap string netem_value) :=
  let netem_options : gmap string netem_value := ∅ in
  (* Parse Latency/Jitter *)
  let latency := dict_get profile "latency" in
  let netem_options :=
    if truthy latency then
      match latency with
      | PDict d =>
          <["jitter" := NVal (dict_get_default d "jitter" (PStr "0ms"))]>
            (<["delay" := NVal (dict_get_default d "delay" (PStr "0ms"))]> netem_options)
      | _ => <["delay" := NVal (PStr (py_str latency))]> netem_options
      end
    else netem_options in
  (* Parse Loss *)
  let loss := dict_get profile "loss" in
  netem_options <-
    match loss with
    | PNone => ret netem_options
    | _ => f <- lift (py_float loss) ;; ret (<["loss" := NFloat f]> netem_options)
    end ;;
  (* Parse Reorder *)
  let reorder := dict_get profile "reorder" in
  match reorder with
  | PNone => ret netem_options
  | _ =>
      f <- lift (py_float reorder) ;;
      let netem_options := <["reorder" := NFloat f]> netem_options in
      if bool_decide (netem_options !! "delay" = None) then
        logger WARNING ("Adding 10ms delay to interface " +:+ interface
                        +:+ " to enable packet reordering.") ;;;
        ret (<["delay" := NVal (PStr "10ms")]> netem_options)
      else ret netem_options
  end.

(** [NetworkConditioner.apply_profile]. *)
Definition apply_profile (namespace : option string) (interface : string)
    (profile : gmap string pyval) : M unit :=
  netem_options <- netem_options_of interface profile ;;
  if bool_decide (netem_options = ∅) then
    logger INFO ("No valid impairments found in profile for " +:+ interface
                 +:+ ". Skipping.")
  else
    try_except any_exception
      (ip <- _get_ip_route namespace ;;
       (* Get interface index *)
       idx_list <- link_lookup ip interface ;;
       match idx_list with
       | [] => raise (Exn KValueError ("Interface " +:+ interface +:+ " not found."))
       | idx :: _ =>
           (* Remove existing qdiscs (root) to ensure clean state *)
           try_except any_exception (tc_del_root ip idx) (fun _ => ret tt) ;;;
           (* Add netem qdisc *)
           tc_add_netem ip idx netem_options ;;;
           fun w => (Ok tt, add_log (LogApplied profile interface namespace) w)
       end)
      (fun e =>
         logger ERROR ("Failed to apply profile to " +:+ interface +:+ ": "
                       +:+ exn_msg e) ;;;
         raise e).


(** The profile table of [runner.main]. *)
Definition cli_profile (name : string) : gmap string pyval :=
  if String.eqb name "latency" then
    <["latency" := PStr "100ms"]> (<["jitter" := PStr "20ms"]> ∅)
  else if String.eqb name "loss" then <["loss" := PInt 5]> ∅
  else if String.eqb name "reorder" then
    <["reorder" := PInt 10]> (<["latency" := PStr "10ms"]> ∅)
  else ∅.

(* ================================================================== *)
(** ** topology.py: NamespaceManager *)
(* ================================================================== *)

Definition register_namespace (name : string) : M unit :=
  fun w =>
    let m := w_mgr w in
    (Ok tt, set_mgr (Manager (created_namespaces m ++ [name])
                             (created_interfaces m) (ndb_closed m)) w).

Definition register_interface (name : string) : M unit :=
  fun w =>
    let m := w_mgr w in
    (Ok tt, set_mgr (Manager (created_namespaces m)
                             (created_interfaces m ++ [name]) (ndb_closed m)) w).

Definition get_mgr : M NamespaceManager := fun w => (Ok (w_mgr w), w).

(** [self.ndb.close()]: closing a closed NDB does nothing. *)
Definition ndb_close : M unit :=
  fun w =>
    let m := w_mgr w in
    (Ok tt, set_mgr (Manager (created_namespaces m) (created_interfaces m) true)
                    (add_call CNdbClose w)).

(** [l[0]]. *)
Definition first_index (l : list nat) : M nat :=
  match l with
  | idx :: _ => ret idx
  | [] => raise (Exn KIndexError "list index out of range")
  end.

(** [NamespaceManager.create_node]. *)
Definition create_node (name : string) : M unit :=
  try_except os_error
    (NetNS name ;;;
     register_namespace name ;;;
     logger INFO ("Created namespace: " +:+ name))
    (fun e =>
       match exn_kind_of e with
       | KOSError 17 =>
           logger WARNING ("Namespace " +:+ name +:+ " already exists.") ;;;
           register_namespace name
       | _ =>
           logger ERROR ("Failed to create namespace " +:+ name +:+ ": " +:+ exn_msg e) ;;;
           raise e
       end).

(** Configuration of one end inside its namespace (lines 65-71 and 74-80
    of [link_nodes]). *)
Definition configure_interface (node if_name ip_addr : string) (subnet_mask : Z) : M unit :=
  ns <- NetNS node ;;
  idx <- (l <- link_lookup ns if_name ;; first_index l) ;;
  link_set_up ns idx ;;;
  addr_add ns idx ip_addr subnet_mask ;;;
  (* Bring up loopback as well *)
  lo_idx <- (l <- link_lookup ns "lo" ;; first_index l) ;;
  link_set_up ns lo_idx.

(** [NamespaceManager.link_nodes]. *)
Definition link_nodes (node_a node_b ip_a ip_b : string) (subnet_mask : Z) : M unit :=
  let if_a_name := "veth-" +:+ py_suffix 4 node_a in
  let if_b_name := "veth-" +:+ py_suffix 4 node_b in
  try_except any_exception
    ((* Create veth pair in the default namespace initially *)
     ip <- IPRoute ;;
     link_add_veth if_a_name if_b_name ;;;
     register_interface if_a_name ;;;
     (* Move interfaces to their respective namespaces *)
     idx_a <- (l <- link_lookup ip if_a_name ;; first_index l) ;;
     idx_b <- (l <- link_lookup ip if_b_name ;; first_index l) ;;
     link_set_ns ip idx_a node_a ;;;
     link_set_ns ip idx_b node_b ;;;
     configure_interface node_a if_a_name ip_a subnet_mask ;;;
     configure_interface node_b if_b_name ip_b subnet_mask ;;;
     logger INFO ("Linked " +:+ node_a +:+ " (" +:+ ip_a +:+ ") <--> "
                  +:+ node_b +:+ " (" +:+ ip_b +:+ ")"))
    (fun e =>
       logger ERROR ("Failed to link nodes " +:+ node_a +:+ " and " +:+ node_b
                     +:+ ": " +:+ exn_msg e) ;;;
       raise e).

(** The first loop of [cleanup]: one registered interface. *)
Definition cleanup_interface (ip : option string) (ifname : string) : M unit :=
  try_except any_exception
    (l <- link_lookup ip ifname ;;
     match l with
     | [] => ret tt
     | _ :: _ =>
         link_del ifname ;;;
         logger INFO ("Removed interface: " +:+ ifname)
     end)
    (fun _ => ret tt).

(** The second loop of [cleanup]: one registered namespace. *)
Definition cleanup_namespace (ns_name : string) : M unit :=
  try_except any_exception
    (netns_remove ns_name ;;;
     logger INFO ("Removed namespace: " +:+ ns_name))
    (fun e =>
       logger WARNING ("Failed to remove namespace " +:+ ns_name +:+ ": " +:+ exn_msg e)).

(** [NamespaceManager.cleanup]. *)
Definition cleanup : M unit :=
  logger INFO "Cleaning up network resources..." ;;;
  ip <- IPRoute ;;
  self <- get_mgr ;;
  for_each (created_interfaces self) (cleanup_interface ip) ;;;
  self <- get_mgr ;;
  for_each (created_namespaces self) cleanup_namespace ;;;
  (fun w => (Ok tt, set_mgr (Manager [] [] (ndb_closed (w_mgr w))) w)) ;;;
  ndb_close.

(** The operations of a manager, for sequences of them. *)
Inductive manager_op :=
| OpCreateNode (name : string)
| OpLinkNodes (node_a node_b ip_a ip_b : string) (subnet_mask : Z)
| OpCleanup.

Definition run_op (op : manager_op) : M unit :=
  match op with
  | OpCreateNode name => create_node name
  | OpLinkNodes a b ip_a ip_b m => link_nodes a b ip_a ip_b m
  | OpCleanup => cleanup
  end.

(** A caller that goes on after a failed operation (as [setup_topology]
    does through its [finally]): each operation runs, whatever the previous
    one did. *)
Fixpoint run_ops (ops : list manager_op) (w : world) : world :=
  match ops with
  | [] => w
  | op :: ops' => run_ops ops' (snd (run_op op w))
  end.

(* ================================================================== *)
(** ** validation.py: the cross-context executor and the assertions *)
(* ================================================================== *)

(** A unit of work for a spawned process: it runs inside the namespace the
    process has entered. *)
Definition job (A : Type) : Type := string -> world -> job_outcome A * world.

(** What [_target_wrapper] puts on the queue: [(True, result)] or
    [(False, reason)]. *)
Inductive message (A : Type) :=
| Succeeded (result : A)
| Failed (reason : string).
Arguments Succeeded {A} result.
Arguments Failed {A} reason.

(** scapy's [sniff(iface=..., count=..., filter=..., timeout=...)]. *)
Definition sniff (interface : string) (count : Z) (filter_expr : string) (timeout : Z)
    : job (list packet) :=
  fun ns w =>
    let w := add_call (CSniff ns interface count filter_expr timeout) w in
    (io_sniff (w_io w) ns interface count filter_expr timeout (w_wire w), w).

(** scapy's [send(pkt, verbose=False)]. *)
Definition send (pkt : packet) : job unit :=
  fun ns w =>
    let w := add_call (CSend ns pkt) w in
    match io_send (w_io w) ns pkt with
    | Returned tt => (Returned tt, add_wire (ns, pkt) w)
    | Raised e => (Raised e, w)
    | Died => (Died, w)
    end.

Definition job_bind {A B} (j : job A) (k : A -> job B) : job B :=
  fun ns w =>
    match j ns w with
    | (Returned a, w') => k a ns w'
    | (Raised e, w') => (Raised e, w')
    | (Died, w') => (Died, w')
    end.

Definition job_ret {A} (a : A) : job A := fun _ w => (Returned a, w).

Definition _sniff_packets (interface : string) (count : Z) (filter_expr : string)
    (timeout : Z) : job (list packet) :=
  job_bind (sniff interface count filter_expr timeout) (fun packets => job_ret packets).

Definition _send_syn (dst_ip : string) (dport : Z) : job packet :=
  let pkt := TcpSyn dst_ip dport in
  job_bind (send pkt) (fun _ => job_ret pkt).

Definition _send_large_icmp (dst_ip : string) (payload_size : Z) : job packet :=
  let pkt := IcmpData dst_ip (Z.max 0 payload_size) in
  job_bind (send pkt) (fun _ => job_ret pkt).

(** [os.path.exists("/var/run/netns/<name>")]. *)
Definition netns_path_exists (ns_name : string) (w : world) : bool :=
  bool_decide (ns_name ∈ k_netns (w_kernel w)).

(** [_target_wrapper], run in the spawned process: the result is what the
    process has put on the queue when it ends. *)
Definition _target_wrapper {A} (ns_name : string) (target : job A)
    : world -> list (message A) * world :=
  fun w =>
    let ns_path := "/var/run/netns/" +:+ ns_name in
    if negb (netns_path_exists ns_name w) then
      ([Failed ("Namespace " +:+ ns_name +:+ " not found")], w)
    else
      match (capability (COpen ns_path) (fun k => (Ok tt, k)) ;;;
             capability (CSetns ns_name) (fun k => (Ok tt, k))) w with
      | (Raise e, w') => ([Failed (exn_msg e)], w')
      | (Ok _, w') =>
          (* Execute target *)
          match target ns_name w' with
          | (Returned result, w'') => ([Succeeded result], w'')
          | (Raised e, w'') => ([Failed (exn_msg e)], w'')
          | (Died, w'') => ([], w'')
          end
      end.

(** A [multiprocessing.Process] with the queue it was given.  The model is
    sequential: the calls of a spawned process are recorded where the
    parent joins it, and a process that is terminated first leaves none.
    The queue takes a result of any size (the pipe buffer behind
    [multiprocessing.Queue] is not modelled). *)
Record process (A : Type) := Process {
  proc_ns : string;
  proc_run : world -> list (message A) * world
}.
Arguments Process {A} proc_ns proc_run.
Arguments proc_ns {A} p.
Arguments proc_run {A} p.

Definition start {A} (p : process A) : M unit := note (CStart (proc_ns p)).

Definition join {A} (p : process A) : M (list (message A)) :=
  fun w => let '(queue, w') := proc_run p (add_call (CJoin (proc_ns p)) w) in (Ok queue, w').

Definition terminate {A} (p : process A) : M unit := note (CTerminate (proc_ns p)).

Definition sleep (seconds : Z) : M unit := note (CSleep seconds).

(** [run_in_ns]. *)
Definition run_in_ns {A} (ns_name : string) (target : job A) : M A :=
  let p := Process ns_name (_target_wrapper ns_name target) in
  start p ;;;
  queue <- join p ;;
  match queue with
  | [] => raise (Exn KException "Process died without returning result")
  | Succeeded result :: _ => ret result
  | Failed result :: _ =>
      raise (Exn KException ("Error in namespace " +:+ ns_name +:+ ": " +:+ result))
  end.

(** [ProtocolAssertion.test_tcp_handshake]. *)
Definition test_tcp_handshake (node_a node_b dst_ip : string) (dport : Z)
    (interface : string) : M bool :=
  logger INFO ("Testing TCP Handshake: " +:+ node_a +:+ " -> " +:+ node_b +:+ " ("
               +:+ dst_ip +:+ ":" +:+ pretty dport +:+ ")") ;;;
  let start_sniffer_b :=
    _sniff_packets interface 1
      ("tcp and dst host " +:+ dst_ip +:+ " and tcp[tcpflags] & tcp-syn != 0") 5 in
  let p_b := Process node_b (_target_wrapper node_b start_sniffer_b) in
  start p_b ;;;
  (* Give sniffer time to start *)
  sleep 1 ;;;
  (* Send SYN from Node A *)
  try_except any_exception
    (run_in_ns node_a (_send_syn dst_ip dport) ;;; ret tt)
    (fun e => terminate p_b ;;; raise e) ;;;
  queue_b <- join p_b ;;
  match queue_b with
  | [] => raise (Exn KAssertionError "Sniffer on Node B failed to capture packet or timeout.")
  | Failed packets :: _ =>
      raise (Exn KAssertionError ("Sniffer error on Node B: " +:+ packets))
  | Succeeded packets :: _ =>
      match packets with
      | [] => raise (Exn KAssertionError "TCP SYN packet not received at Node B")
      | _ :: _ =>
          logger INFO "TCP Handshake (SYN delivery) Verified." ;;;
          ret true
      end
  end.

(** [ProtocolAssertion.test_mtu_fragmentation]. *)
Definition test_mtu_fragmentation (node_a node_b dst_ip : string) (mtu payload_size : Z)
    (interface : string) : M bool :=
  logger INFO ("Testing MTU Fragmentation: " +:+ node_a +:+ " -> " +:+ node_b
               +:+ " (Size: " +:+ pretty payload_size +:+ ", MTU: " +:+ pretty mtu +:+ ")") ;;;
  let start_sniffer_b :=
    _sniff_packets interface 2 ("icmp and dst host " +:+ dst_ip) 5 in
  let p_b := Process node_b (_target_wrapper node_b start_sniffer_b) in
  start p_b ;;;
  sleep 1 ;;;
  (* Send Large ICMP from Node A *)
  run_in_ns node_a (_send_large_icmp dst_ip payload_size) ;;;
  queue_b <- join p_b ;;
  match queue_b with
  | [] => raise (Exn KAssertionError "Sniffer on Node B failed.")
  | Failed packets :: _ => raise (Exn KAssertionError ("Sniffer error: " +:+ packets))
  | Succeeded packets :: _ =>
      if (Z.of_nat (length packets) <? 2)%Z then
        raise (Exn KAssertionError ("Expected fragmentation (>= 2 packets), got "
                                    +:+ pretty (Z.of_nat (length packets))))
      else
        logger INFO "MTU Fragmentation Verified." ;;;
        ret true
  end.

(* ================================================================== *)
(** ** Worlds and profiles to run the code on *)
(* ================================================================== *)

(** A wire that delivers: a capture sees the first [count] packets sent;
    sending succeeds. *)
Definition wire_io : packet_io :=
  PacketIO (fun _ _ count _ _ wire => Returned (take (Z.to_nat count) (map snd wire)))
           (fun _ _ => Returned tt).

(** A host with its loopback only, and a manager that has done nothing. *)
Definition fresh_world : world :=
  World (Kernel [] [Iface 1 "lo" None None true [] None] 2)
        (Manager [] [] false) [] [] [] wire_io [].

(** What [runner.setup_topology] builds. *)
Definition client_server : list manager_op :=
  [OpCreateNode "client"; OpCreateNode "server";
   OpLinkNodes "client" "server" "10.0.0.1" "10.0.0.2" 24].

Definition linked_world : world := run_ops client_server fresh_world.

(** The world in which the client's end carries the CLI's latency profile. *)
Definition impaired_world : world :=
  snd (apply_profile (Some "client") "veth-ient" (cli_profile "latency") linked_world).

(** Only the client node exists when the link is attempted. *)
Definition client_only_world : world := run_ops [OpCreateNode "client"] fresh_world.

(** A link attempt between two nodes that do not exist has left its veth
    pair in the default namespace; the capability then lets the next lookup
    through and refuses the change that follows it. *)
Definition permission_denied : exn := Exn (KNetlinkError 1) "Operation not permitted".



Definition jitter_mapping_reorder : gmap string pyval :=
  <["latency" := PDict (<["jitter" := PStr "5ms"]> ∅)]> (<["reorder" := PInt 10]> ∅).
Definition empty_mapping_reorder : gmap string pyval :=
  <["latency" := PDict ∅]> (<["reorder" := PInt 10]> ∅).
Definition delay_jitter_mapping : gmap string pyval :=
  <["latency" := PDict (<["delay" := PStr "100ms"]> (<["jitter" := PStr "20ms"]> ∅))]> ∅.

(** The configurations the CLI's latency and loss profiles translate to. *)
Definition latency_config : gmap string netem_value :=
  <["delay" := NVal (PStr "100ms")]> ∅.

(* ================================================================== *)
(** ** Vocabulary of the statements *)
(* ================================================================== *)

(** The translation of a profile, apart from the log it leaves. *)
Definition translation (profile : gmap string pyval) : result (gmap string netem_value) :=
  fst (netem_options_of "" profile fresh_world).

(** [None], or something [float(...)] accepts. *)
Definition none_or_number (v : pyval) : bool :=
  match v with
  | PNone => true
  | _ => is_ok (py_float v)
  end.

(** The warning that goes with the floor delay. *)
Definition floor_warning (interface : string) : log_entry :=
  Log WARNING ("Adding 10ms delay to interface " +:+ interface
               +:+ " to enable packet reordering.").





(** What [cleanup] asks of the capability for one registered interface: a
    lookup in the default namespace, and a deletion when that lookup found
    the interface there. *)
Definition interface_attempt (ifname : string) (cs : list call) : Prop :=
  cs = [CLinkLookup None ifname] ∨ cs = [CLinkLookup None ifname; CLinkDel ifname].

(** What [cleanup] logs for one registered interface: nothing, or its
    removal. *)
Definition interface_record (ifname : string) (es : list log_entry) : Prop :=
  es = [] ∨ es = [Log INFO ("Removed interface: " +:+ ifname)].

(** What [cleanup] logs for one registered namespace: its removal, or a
    warning that carries the error. *)
Definition namespace_record (ns_name : string) (e : log_entry) : Prop :=
  e = Log INFO ("Removed namespace: " +:+ ns_name)
  ∨ ∃ msg, e = Log WARNING ("Failed to remove namespace " +:+ ns_name +:+ ": " +:+ msg).

(** A statement that leaves the manager object alone. *)
Definition keeps_mgr {A} (m : M A) : Prop := ∀ w, w_mgr (snd (m w)) = w_mgr w.

(** The interface names [link_nodes] derives from the node names. *)
Definition if_name_of (node : string) : string := "veth-" +:+ py_suffix 4 node.

(** The world in which a spawned unit's job starts, when the unit got into
    its namespace: the calls of [start], [join], [open] and [setns] are on
    record. *)
Definition entered (ns_name : string) (w : world) : world :=
  add_call (CSetns ns_name)
    (add_call (COpen ("/var/run/netns/" +:+ ns_name))
       (add_call (CJoin ns_name) (add_call (CStart ns_name) w))).

(** A job that only adds to the record of calls. *)
Definition job_extends {A} (j : job A) : Prop :=
  ∀ ns w, ∃ cs, w_calls (snd (j ns w)) = (w_calls w ++ cs)%list.

(** The reason [run_in_ns] gives for a namespace that is not there. *)
Definition not_found_reason (ns_name : string) : string :=
  "Error in namespace " +:+ ns_name +:+ ": Namespace " +:+ ns_name +:+ " not found".

(* ================================================================== *)
(** ** runner.py: the command-line entry point *)
(* ================================================================== *)

(** What the runner itself leaves behind, in order: the records of its own
    logger (["Runner"]) and the lines it prints.  The one record that
    formats a whole profile dictionary keeps the dictionary. *)
Inductive runner_event :=
| RunnerInfo (msg : string)
| RunnerInfoProfile (profile : gmap string pyval)
| Print (line : string).

(** Statements of the runner: the monad of Python statements, with the
    runner's events threaded next to the world. *)
Definition R (A : Type) : Type :=
  list runner_event * world -> result A * (list runner_event * world).

Definition r_ret {A} (a : A) : R A := fun s => (Ok a, s).
Definition r_bind {A B} (m : R A) (f : A -> R B) : R B :=
  fun s => match m s with
           | (Ok a, s') => f a s'
           | (Raise e, s') => (Raise e, s')
           end.
Definition r_lift {A} (m : M A) : R A :=
  fun s => let '(r, w') := m (snd s) in (r, (fst s, w')).
Definition emit (e : runner_event) : R unit :=
  fun s => (Ok tt, ((fst s ++ [e])%list, snd s)).

Declare Scope run_scope.
Delimit Scope run_scope with run.
Notation "x <- m ;; k" := (r_bind m (fun x => k))
  (at level 100, m at next level, right associativity) : run_scope.
Notation "m ;;; k" := (r_bind m (fun _ => k))
  (at level 100, right associativity) : run_scope.

(** [try: body finally: final]: [final] runs however [body] ends; an
    exception of [final] replaces the outcome of [body]. *)
Definition r_try_finally {A} (body : R A) (final : R unit) : R A :=
  fun s => match body s with
           | (r, s') =>
               match final s' with
               | (Ok _, s'') => (r, s'')
               | (Raise e, s'') => (Raise e, s'')
               end
           end.

(** [try: body except AssertionError as e: on_assert e
    except Exception as e: on_other e]. *)
Definition r_try_except {A} (body : R A) (on_assert on_other : exn -> R A) : R A :=
  fun s => match body s with
           | (Ok a, s') => (Ok a, s')
           | (Raise e, s') =>
               match exn_kind_of e with
               | KAssertionError => on_assert e s'
               | _ => on_other e s'
               end
           end.

(** ANSI colour codes. *)
Definition ESC : string := String (ascii_of_nat 27) "".
Definition GREEN : string := ESC +:+ "[92m".
Definition RED : string := ESC +:+ "[91m".
Definition RESET : string := ESC +:+ "[0m".

Definition pass_line : string :=
  GREEN +:+ "[PASS] TCP Handshake Verification Successful!" +:+ RESET.
Definition fail_line (e : exn) : string :=
  RED +:+ "[FAIL] TCP Handshake Failed: " +:+ exn_msg e +:+ RESET.
Definition error_line (e : exn) : string :=
  RED +:+ "[ERROR] Test Crashing: " +:+ exn_msg e +:+ RESET.

(** [nm = NamespaceManager()]: a new manager object, with an empty registry
    and an open NDB. *)
Definition new_manager : M unit :=
  fun w => (Ok tt, set_mgr (Manager [] [] false) w).

(** [with setup_topology() as nm: body]: the generator runs to its [yield],
    the body runs there, and the [finally] clause runs when either of them
    raises or the body is done. *)
Definition setup_topology {A} (body : R A) : R A :=
  (r_lift new_manager ;;;
   r_try_finally
     (emit (RunnerInfo "Setting up topology (Client <-> Server)...") ;;;
      r_lift (create_node "client") ;;;
      r_lift (create_node "server") ;;;
      (* Link them: Client 10.0.0.1 <--> Server 10.0.0.2 *)
      r_lift (link_nodes "client" "server" "10.0.0.1" "10.0.0.2" 24) ;;;
      body)
     (emit (RunnerInfo "Cleaning up topology...") ;;;
      r_lift cleanup))%run.

(** [run_test]. *)
Definition run_test (impairment_profile : gmap string pyval) : R unit :=
  setup_topology
    (let client_iface := "veth-ient" in
     let server_iface := "veth-rver" in
     (if bool_decide (impairment_profile ≠ ∅) then
        emit (RunnerInfoProfile impairment_profile) ;;;
        r_lift (apply_profile (Some "client") client_iface impairment_profile)
      else r_ret tt) ;;;
     (* Give time for things to settle *)
     r_lift (sleep 1) ;;;
     (* 2. Run Verification *)
     emit (RunnerInfo "Running TCP Handshake Verification...") ;;;
     r_try_except
       (r_lift (test_tcp_handshake "client" "server" "10.0.0.2" 80 server_iface) ;;;
        emit (Print pass_line))
       (fun e => emit (Print (fail_line e)))
       (fun e => emit (Print (error_line e))))%run.

(** [main], after argparse has accepted [--profile] (one of [latency],
    [loss], [reorder], [none]; [latency] when the flag is absent). *)
Definition main (profile_flag : option string) : R unit :=
  run_test (cli_profile (default "latency" profile_flag)).

(* ================================================================== *)
(** ** sniffer.py: the diagnostic packet logger *)
(* ================================================================== *)

(** What [packet_callback] reads of a captured packet: its summary and the
    fields of its IP, TCP and UDP layers, when it has them. *)
Record captured := Captured {
  cap_summary : string;
  cap_ip : option (string * string * Z);
  cap_tcp : option (Z * Z);
  cap_udp : option (Z * Z)
}.

(** A [PacketSniffer] object, with the lines its logger has written. *)
Record PacketSniffer := Sniffer {
  sn_interface : option string;
  max_packets : Z;
  packet_count : Z;
  sn_log : list string
}.

(** [PacketSniffer(interface, max_packets)]. *)
Definition new_sniffer (interface : option string) (max_packets : Z) : PacketSniffer :=
  Sniffer interface max_packets 0 [].

(** The lines [packet_callback] logs for one packet. *)
Definition packet_lines (packet : captured) : list string :=
  ([cap_summary packet]
   ++ match cap_ip packet with
      | Some (src, dst, proto) =>
          ["Source IP: " +:+ src +:+ ", Destination IP: " +:+ dst
           +:+ ", Protocol: " +:+ pretty proto]
      | None => []
      end
   ++ match cap_tcp packet with
      | Some (sport, dport) =>
          ["Source Port: " +:+ pretty sport +:+ ", Destination Port: " +:+ pretty dport]
      | None => []
      end
   ++ match cap_udp packet with
      | Some (sport, dport) =>
          ["Source Port: " +:+ pretty sport +:+ ", Destination Port: " +:+ pretty dport]
      | None => []
      end)%list.

(** [PacketSniffer.packet_callback]. *)
Definition packet_callback (self : PacketSniffer) (packet : captured) : PacketSniffer :=
  if packet_count self <? max_packets self then
    Sniffer (sn_interface self) (max_packets self) (packet_count self + 1)
            (sn_log self ++ packet_lines packet)
  else self.

(** How scapy's [sniff] ends: it returns, the user interrupts it, or it
    raises. *)
Inductive sniff_end :=
| SniffDone
| SniffInterrupted
| SniffFailed (e : exn).

(** [PacketSniffer.start]: [sniff] hands the packets it captures to the
    callback, one by one; the object and the printed lines are the result. *)
Definition sniffer_start (self : PacketSniffer) (arrivals : list captured)
    (ending : sniff_end) : PacketSniffer * list string :=
  let banner :=
    "Starting packet capture on "
    +:+ match sn_interface self with
        | Some i => if String.eqb i "" then "all interfaces" else i
        | None => "all interfaces"
        end
    +:+ ". Press Ctrl+C to stop." in
  let self := fold_left packet_callback arrivals self in
  (self,
   match ending with
   | SniffDone => [banner]
   | SniffInterrupted => [banner; "Packet capture stopped."]
   | SniffFailed e => [banner; "An error occurred: " +:+ exn_msg e]
   end).

(* ================================================================== *)
(** ** Vocabulary of the further statements *)
(* ================================================================== *)


(** [{'loss': 'abc'}]. *)
Definition bad_loss_profile : gmap string pyval := <["loss" := PStr "abc"]> ∅.

(** The operations of the setup path: everything but [cleanup]. *)
Definition is_setup (op : manager_op) : bool :=
  match op with
  | OpCleanup => false
  | _ => true
  end.

(** The capture filters of the two assertions. *)
Definition syn_filter (dst_ip : string) : string :=
  "tcp and dst host " +:+ dst_ip +:+ " and tcp[tcpflags] & tcp-syn != 0".
Definition icmp_filter (dst_ip : string) : string := "icmp and dst host " +:+ dst_ip.


(** A wire on which nothing arrives: every capture times out empty. *)
Definition silent_io : packet_io :=
  PacketIO (fun _ _ _ _ _ _ => Returned []) (fun _ _ => Returned tt).

Definition silent_world : world :=
  World (w_kernel linked_world) (w_mgr linked_world) [] (w_log linked_world)
        (w_calls linked_world) silent_io [].

(** The world in which a unit's job starts once the unit has opened and
    entered its namespace. *)
Definition opened (ns_name : string) (w : world) : world :=
  add_call (CSetns ns_name) (add_call (COpen ("/var/run/netns/" +:+ ns_name)) w).

(** A wire that fragments: a capture sees every packet sent in two pieces. *)
Definition fragmenting_io : packet_io :=
  PacketIO (fun _ _ count _ _ wire =>
              Returned (take (Z.to_nat count)
                          (concat (map (fun p => [snd p; snd p]) wire))))
           (fun _ _ => Returned tt).

Definition fragmenting_world : world :=
  World (w_kernel linked_world) (w_mgr linked_world) [] (w_log linked_world)
        (w_calls linked_world) fragmenting_io [].



(** The three calls of [setup_topology]'s [try] block, for any two nodes
    and their addresses. *)
Definition build_pair (node_a node_b ip_a ip_b : string) (subnet_mask : Z) : M unit :=
  create_node node_a ;;;
  create_node node_b ;;;
  link_nodes node_a node_b ip_a ip_b subnet_mask.

(** What a link of the host must satisfy for the two nodes to be new to it:
    it is in neither node's namespace, it does not carry one of the two
    endpoint names in the default namespace, and its index and its peer's
    were handed out before. *)
Definition apart (k : kernel) (node_a node_b : string) (l : iface) : bool :=
  (if_index l <? k_next k)%nat
  && match if_peer l with Some p => (p <? k_next k)%nat | None => true end
  && negb (bool_decide (if_ns l = Some node_a))
  && negb (bool_decide (if_ns l = Some node_b))
  && negb (named None (if_name_of node_a) l)
  && negb (named None (if_name_of node_b) l).

(** A host on which neither node exists and the endpoint names are free. *)
Definition vacant (k : kernel) (node_a node_b : string) : bool :=
  negb (bool_decide (node_a ∈ k_netns k))
  && negb (bool_decide (node_b ∈ k_netns k))
  && forallb (apart k node_a node_b) (k_links k).

(** The host with the two nodes next to what it had: each node's namespace
    with its loopback up, and the veth pair, one end in each namespace, up
    and carrying its address. *)
Definition paired (k : kernel) (node_a node_b ip_a ip_b : string) (subnet_mask : Z)
    : kernel :=
  let n := k_next k in
  Kernel (k_netns k ++ [node_a; node_b])
         (k_links k
          ++ [Iface n "lo" (Some node_a) None true [] None;
              Iface (S n) "lo" (Some node_b) None true [] None;
              Iface (S (S n)) (if_name_of node_a) (Some node_a) (Some (S (S (S n))))
                    true [(ip_a, subnet_mask)] None;
              Iface (S (S (S n))) (if_name_of node_b) (Some node_b) (Some (S (S n)))
                    true [(ip_b, subnet_mask)] None])
         (S (S (S (S n)))).

(* ================================================================== *)
(** * Properties *)
(* ================================================================== *)

(** ** The profile translation *)

Section Translation.
Variable interface : string.
Variable profile : gmap string pyval.
Variable w : world.

(** The loss step of the translation, on a profile whose loss is absent
    or a number: it adds at most the key [loss]. *)
Lemma loss_step (opts : gmap string netem_value) :
  none_or_number (dict_get profile "loss") = true →
  ∃ opts',
    match dict_get profile "loss" with
    | PNone => ret opts
    | _ => f <- lift (py_float (dict_get profile "loss")) ;;
           ret (<["loss" := NFloat f]> opts)
    end%py w = (Ok opts', w)
    ∧ ∀ k, k ≠ "loss" → opts' !! k = opts !! k.
Proof.
  intros Hloss. unfold none_or_number in Hloss.
  destruct (dict_get profile "loss") eqn:E;
    [by exists opts | .. | discriminate];
    (destruct (py_float _) as [f|e] eqn:F; [|discriminate];
     exists (<["loss" := NFloat f]> opts); unfold bind, lift, ret;
     split; [reflexivity | intros k Hk; by rewrite lookup_insert_ne]).
Qed.

Lemma bind_ok {A B} (m : M A) (k : A → M B) (w0 w1 : world) (a : A) :
  m w0 = (Ok a, w1) → bind m k w0 = k a w1.
Proof. intros H. unfold bind. by rewrite H. Qed.


(** C10, as amended: a non-empty mapping given as latency has a missing
    [delay] or [jitter] filled with [0ms]; when it lacks [delay] and
    reorder is set, the delay stays [0ms], the floor is not substituted
    and nothing is logged. *)
Theorem mapping_latency_defaults (d : gmap string pyval) :
  dict_get profile "latency" = PDict d →
  d ≠ ∅ →
  none_or_number (dict_get profile "loss") = true →
  none_or_number (dict_get profile "reorder") = true →
  ∃ cfg,
    netem_options_of interface profile w = (Ok cfg, w)
    ∧ cfg !! "delay" = Some (NVal (dict_get_default d "delay" (PStr "0ms")))
    ∧ cfg !! "jitter" = Some (NVal (dict_get_default d "jitter" (PStr "0ms")))
    ∧ (d !! "delay" = None → cfg !! "delay" = Some (NVal (PStr "0ms")))
    ∧ (d !! "jitter" = None → cfg !! "jitter" = Some (NVal (PStr "0ms")))
    ∧ (∀ f, py_float (dict_get profile "reorder") = Ok f →
            cfg !! "reorder" = Some (NFloat f)).
Proof.
  intros Hlat Hne Hloss Hre.
  set (base := <["jitter" := NVal (dict_get_default d "jitter" (PStr "0ms"))]>
                 (<["delay" := NVal (dict_get_default d "delay" (PStr "0ms"))]>
                    (∅ : gmap string netem_value))).
  destruct (loss_step base Hloss) as (opts & Hstep & Hsame).
  assert (Hdelay : opts !! "delay"
                   = Some (NVal (dict_get_default d "delay" (PStr "0ms")))).
  { rewrite Hsame by done. unfold base.
    by rewrite lookup_insert_ne, lookup_insert_eq by done. }
  assert (Hjitter : opts !! "jitter"
                    = Some (NVal (dict_get_default d "jitter" (PStr "0ms")))).
  { rewrite Hsame by done. unfold base. by rewrite lookup_insert_eq. }
  assert (Hrun : ∃ cfg, netem_options_of interface profile w = (Ok cfg, w)
                        ∧ cfg !! "delay" = opts !! "delay"
                        ∧ cfg !! "jitter" = opts !! "jitter"
                        ∧ (∀ f, py_float (dict_get profile "reorder") = Ok f →
                                cfg !! "reorder" = Some (NFloat f))).
  { unfold netem_options_of. rewrite Hlat. simpl truthy.
    rewrite bool_decide_eq_false_2 by done. simpl negb. cbv iota.
    fold base. erewrite bind_ok by exact Hstep.
    unfold none_or_number in Hre.
    destruct (dict_get profile "reorder") eqn:E;
      [exists opts; by repeat split | .. | discriminate];
      (destruct (py_float _) as [f|e] eqn:F; [|discriminate];
       exists (<["reorder" := NFloat f]> opts); unfold bind, lift;
       rewrite bool_decide_eq_false_2
         by (rewrite lookup_insert_ne, Hdelay by done; done);
       repeat split; try (by rewrite lookup_insert_ne by done);
       intros f' [= <-]; by rewrite lookup_insert_eq). }
  destruct Hrun as (cfg & Hcfg & Hd & Hj & Hr).
  exists cfg. rewrite Hd, Hj, Hdelay, Hjitter.
  repeat split; try done.
  - intros Hnone. unfold dict_get_default. by rewrite Hnone.
  - intros Hnone. unfold dict_get_default. by rewrite Hnone.
Qed.
End Translation.



(** C10, witness of the amended statement. *)
Lemma jitter_mapping_gets_zero_delay :
  ∃ cfg,
    netem_options_of "veth0" jitter_mapping_reorder fresh_world = (Ok cfg, fresh_world)
    ∧ cfg !! "delay" = Some (NVal (PStr "0ms"))
    ∧ cfg !! "jitter" = Some (NVal (PStr "5ms"))
    ∧ cfg !! "reorder" = Some (NFloat (FloatOfInt 10)).
Proof.
  destruct (mapping_latency_defaults "veth0" jitter_mapping_reorder fresh_world
              (<["jitter" := PStr "5ms"]> ∅))
    as (cfg & Hrun & _ & Hj & Hd & _ & Hr).
  - reflexivity.
  - intros H. apply (f_equal (fun m => m !! "jitter")) in H. discriminate H.
  - reflexivity.
  - reflexivity.
  - exists cfg. split; [exact Hrun|]. split; [by apply Hd|]. split; [exact Hj|].
    by apply Hr.
Defined.

(** C10, counterexample: latency is given as a mapping that lacks [delay]
    (the empty one) and reorder is set, yet neither default is filled in
    and the delay is the floor [10ms], with its warning. *)
Lemma empty_mapping_latency_gets_floor :
  dict_get empty_mapping_reorder "latency" = PDict ∅
  ∧ (∅ : gmap string pyval) !! "delay" = None
  ∧ dict_get empty_mapping_reorder "reorder" = PInt 10
  ∧ ∃ cfg,
      netem_options_of "veth0" empty_mapping_reorder fresh_world
        = (Ok cfg, add_log (floor_warning "veth0") fresh_world)
      ∧ cfg !! "delay" = Some (NVal (PStr "10ms"))
      ∧ cfg !! "delay" ≠ Some (NVal (PStr "0ms"))
      ∧ cfg !! "jitter" = None.
Proof.
  repeat split; try reflexivity.
  exists (<["delay" := NVal (PStr "10ms")]> (<["reorder" := NFloat (FloatOfInt 10)]> ∅)).
  split; [vm_compute; reflexivity|].
  split; [reflexivity|]. split; [|reflexivity].
  vm_compute. discriminate.
Qed.

(** C5: the CLI's [latency] profile, [{'latency': '100ms', 'jitter': '20ms'}],
    translates to [{delay: '100ms'}] alone: the top-level [jitter] is not
    among the keys [apply_profile] reads, and the configuration has no
    jitter field. *)
Theorem cli_latency_profile_loses_jitter (interface : string) (w : world) :
  cli_profile "latency" !! "jitter" = Some (PStr "20ms")
  ∧ netem_options_of interface (cli_profile "latency") w
    = (Ok (<["delay" := NVal (PStr "100ms")]> ∅), w)
  ∧ (<["delay" := NVal (PStr "100ms")]> ∅ : gmap string netem_value) !! "jitter" = None.
Proof. repeat split. Qed.

(** The documented shape of the same profile does carry both fields. *)
Lemma mapping_latency_keeps_jitter (interface : string) (w : world) :
  netem_options_of interface delay_jitter_mapping w
  = (Ok (<["delay" := NVal (PStr "100ms")]> (<["jitter" := NVal (PStr "20ms")]> ∅)), w).
Proof. reflexivity. Qed.

(** ** The monad and the capability calls *)

Lemma capability_no_fault {A} (c : call) (natural : kernel → result A * kernel) (w : world) :
  w_faults w = [] →
  capability c natural w
  = (fst (natural (w_kernel w)), set_kernel (snd (natural (w_kernel w))) (add_call c w)).
Proof.
  intros H. unfold capability. simpl. rewrite H.
  by destruct (natural (w_kernel w)).
Qed.


(** ** The kernel model: lookups under updates *)

Section KernelLemmas.
Variable ns : option string.
Variable idx : nat.











End KernelLemmas.

(** ** impairment.py *)



Lemma link_lookup_no_fault (ip : option string) (name : string) (w : world) :
  w_faults w = [] →
  link_lookup ip name w
  = (Ok (lookup_link (w_kernel w) ip name), add_call (CLinkLookup ip name) w).
Proof.
  intros Hf. unfold link_lookup. rewrite capability_no_fault by done.
  by destruct w.
Qed.









(** ** topology.py *)

(** A capability call touches neither the manager nor the log, and leaves
    exactly one record in the list of calls. *)
Lemma capability_frame {A} (c : call) (natural : kernel → result A * kernel) (w : world) :
  w_mgr (snd (capability c natural w)) = w_mgr w
  ∧ w_log (snd (capability c natural w)) = w_log w
  ∧ w_calls (snd (capability c natural w)) = (w_calls w ++ [c])%list.
Proof.
  unfold capability. simpl.
  destruct (w_faults w) as [|[e|] fs]; simpl; try done;
    by destruct (natural (w_kernel w)).
Qed.

Lemma cleanup_interface_spec (ifname : string) (w : world) :
  ∃ w' cs es,
    cleanup_interface None ifname w = (Ok tt, w')
    ∧ w_mgr w' = w_mgr w
    ∧ w_calls w' = (w_calls w ++ cs)%list ∧ interface_attempt ifname cs
    ∧ w_log w' = (w_log w ++ es)%list ∧ interface_record ifname es.
Proof.
  unfold cleanup_interface, try_except, bind, link_lookup, link_del.
  destruct (capability_frame (CLinkLookup None ifname)
              (λ k, (Ok (lookup_link k None ifname), k)) w) as (Hm1 & Hl1 & Hc1).
  destruct (capability (CLinkLookup None ifname) _ w) as [[l|e] w1]; simpl in *.
  2:{ exists w1, [CLinkLookup None ifname], []. rewrite app_nil_r.
      repeat split; try done; by left. }
  destruct l as [|i l].
  { exists w1, [CLinkLookup None ifname], []. rewrite app_nil_r.
    repeat split; try done; by left. }
  match goal with |- context [capability (CLinkDel ifname) ?n w1] =>
    destruct (capability_frame (CLinkDel ifname) n w1) as (Hm2 & Hl2 & Hc2);
    destruct (capability (CLinkDel ifname) n w1) as [[[]|e] w2]
  end; simpl in *.
  - eexists _, [CLinkLookup None ifname; CLinkDel ifname], [_].
    split; [reflexivity|]. simpl.
    rewrite Hm2, Hm1, Hc2, Hc1, Hl2, Hl1, <- app_assoc.
    repeat split; try done; by right.
  - exists w2, [CLinkLookup None ifname; CLinkDel ifname], [].
    rewrite Hm2, Hm1, Hc2, Hc1, Hl2, Hl1, <- app_assoc, app_nil_r.
    repeat split; try done; [by right|by left].
Qed.

Lemma cleanup_namespace_spec (ns_name : string) (w : world) :
  ∃ w' e,
    cleanup_namespace ns_name w = (Ok tt, w')
    ∧ w_mgr w' = w_mgr w
    ∧ w_calls w' = (w_calls w ++ [CNetnsRemove ns_name])%list
    ∧ w_log w' = (w_log w ++ [e])%list ∧ namespace_record ns_name e.
Proof.
  unfold cleanup_namespace, try_except, bind, netns_remove.
  match goal with |- context [capability (CNetnsRemove ns_name) ?n w] =>
    destruct (capability_frame (CNetnsRemove ns_name) n w) as (Hm & Hl & Hc);
    destruct (capability (CNetnsRemove ns_name) n w) as [[[]|e] w1]
  end; simpl in *.
  - eexists _, _. split; [reflexivity|]. simpl. rewrite Hm, Hc, Hl.
    repeat split; try done. by left.
  - eexists _, _. split; [reflexivity|]. simpl. rewrite Hm, Hc, Hl.
    repeat split; try done. right. by eexists.
Qed.

Lemma cleanup_interfaces_spec (ifnames : list string) (w : world) :
  ∃ w' chunks records,
    for_each ifnames (cleanup_interface None) w = (Ok tt, w')
    ∧ w_mgr w' = w_mgr w
    ∧ w_calls w' = (w_calls w ++ concat chunks)%list
    ∧ Forall2 interface_attempt ifnames chunks
    ∧ w_log w' = (w_log w ++ concat records)%list
    ∧ Forall2 interface_record ifnames records.
Proof.
  revert w. induction ifnames as [|n ns IH]; intros w.
  - exists w, [], []. simpl. rewrite !app_nil_r. repeat split; constructor.
  - destruct (cleanup_interface_spec n w) as (w1 & cs & es & E1 & Hm1 & Hc1 & Ha1 & Hl1 & Hr1).
    destruct (IH w1) as (w2 & chunks & records & E2 & Hm2 & Hc2 & Ha2 & Hl2 & Hr2).
    exists w2, (cs :: chunks), (es :: records).
    simpl. erewrite bind_ok by exact E1.
    rewrite Hm2, Hm1, Hc2, Hc1, Hl2, Hl1, <- !app_assoc.
    repeat split; try done; by constructor.
Qed.

Lemma cleanup_namespaces_spec (names : list string) (w : world) :
  ∃ w' records,
    for_each names cleanup_namespace w = (Ok tt, w')
    ∧ w_mgr w' = w_mgr w
    ∧ w_calls w' = (w_calls w ++ map CNetnsRemove names)%list
    ∧ w_log w' = (w_log w ++ records)%list
    ∧ Forall2 namespace_record names records.
Proof.
  revert w. induction names as [|n ns IH]; intros w.
  - exists w, []. simpl. rewrite !app_nil_r. repeat split; constructor.
  - destruct (cleanup_namespace_spec n w) as (w1 & e & E1 & Hm1 & Hc1 & Hl1 & Hr1).
    destruct (IH w1) as (w2 & records & E2 & Hm2 & Hc2 & Hl2 & Hr2).
    exists w2, (e :: records).
    simpl. erewrite bind_ok by exact E1.
    rewrite Hm2, Hm1, Hc2, Hc1, Hl2, Hl1, <- !app_assoc.
    repeat split; try done; by constructor.
Qed.

Lemma cleanup_spec (w : world) :
  ∃ w' chunks if_records ns_records,
    cleanup w = (Ok tt, w')
    ∧ created_namespaces (w_mgr w') = [] ∧ created_interfaces (w_mgr w') = []
    ∧ ndb_closed (w_mgr w') = true
    ∧ w_calls w' = (w_calls w ++ [CIPRoute] ++ concat chunks
                    ++ map CNetnsRemove (created_namespaces (w_mgr w))
                    ++ [CNdbClose])%list
    ∧ Forall2 interface_attempt (created_interfaces (w_mgr w)) chunks
    ∧ w_log w' = (w_log w ++ [Log INFO "Cleaning up network resources..."]
                  ++ concat if_records ++ ns_records)%list
    ∧ Forall2 interface_record (created_interfaces (w_mgr w)) if_records
    ∧ Forall2 namespace_record (created_namespaces (w_mgr w)) ns_records.
Proof.
  set (w0 := add_call CIPRoute (add_log (Log INFO "Cleaning up network resources...") w)).
  destruct (cleanup_interfaces_spec (created_interfaces (w_mgr w)) w0)
    as (w1 & chunks & if_records & E1 & Hm1 & Hc1 & Ha1 & Hl1 & Hr1).
  destruct (cleanup_namespaces_spec (created_namespaces (w_mgr w)) w1)
    as (w2 & ns_records & E2 & Hm2 & Hc2 & Hl2 & Hr2).
  exists (set_mgr (Manager [] [] true)
            (add_call CNdbClose (set_mgr (Manager [] [] (ndb_closed (w_mgr w2))) w2))),
    chunks, if_records, ns_records.
  split.
  - unfold cleanup, IPRoute, logger, note, get_mgr, ndb_close, bind at 1 2 3 4 5, ret.
    fold w0. simpl w_mgr at 1. change (w_mgr w0) with (w_mgr w).
    unfold bind at 1. rewrite E1.
    unfold bind at 1. rewrite Hm1. change (w_mgr w0) with (w_mgr w).
    unfold bind at 1. rewrite E2. reflexivity.
  - simpl. rewrite Hc2, Hc1, Hl2, Hl1. simpl. rewrite <- !app_assoc.
    repeat split; done.
Qed.



(** ** link_nodes and the registry *)

Lemma keeps_mgr_capability {A} (c : call) (natural : kernel → result A * kernel) :
  keeps_mgr (capability c natural).
Proof. intros w. apply capability_frame. Qed.

Lemma keeps_mgr_logger (l : level) (msg : string) : keeps_mgr (logger l msg).
Proof. by intros w. Qed.

Lemma keeps_mgr_note (c : call) : keeps_mgr (note c).
Proof. by intros w. Qed.

Lemma keeps_mgr_ret {A} (a : A) : keeps_mgr (ret a).
Proof. by intros w. Qed.

Lemma keeps_mgr_raise {A} (e : exn) : keeps_mgr (@raise A e).
Proof. by intros w. Qed.

Lemma keeps_mgr_bind {A B} (m : M A) (k : A → M B) :
  keeps_mgr m → (∀ a, keeps_mgr (k a)) → keeps_mgr (bind m k).
Proof.
  intros Hm Hk w. unfold bind. specialize (Hm w).
  destruct (m w) as [[a|e] w1]; simpl in *; [|done].
  by rewrite Hk.
Qed.

Lemma keeps_mgr_try {A} (catches : exn → bool) (body : M A) (handler : exn → M A) :
  keeps_mgr body → (∀ e, keeps_mgr (handler e)) → keeps_mgr (try_except catches body handler).
Proof.
  intros Hb Hh w. unfold try_except. specialize (Hb w).
  destruct (body w) as [[a|e] w1]; simpl in *; [done|].
  destruct (catches e); [|done]. by rewrite Hh.
Qed.

Lemma keeps_mgr_first_index (l : list nat) : keeps_mgr (first_index l).
Proof. destruct l; [apply keeps_mgr_raise|apply keeps_mgr_ret]. Qed.

Create HintDb mgr.
#[local] Hint Resolve keeps_mgr_logger keeps_mgr_note keeps_mgr_ret keeps_mgr_raise
  keeps_mgr_bind keeps_mgr_try keeps_mgr_first_index : mgr.
#[local] Hint Extern 1 (keeps_mgr (capability _ _)) => apply keeps_mgr_capability : mgr.
#[local] Hint Unfold NetNS IPRoute link_lookup link_add_veth link_set_ns link_set_up
  addr_add : mgr.

Lemma keeps_mgr_configure (node if_name ip_addr : string) (mask : Z) :
  keeps_mgr (configure_interface node if_name ip_addr mask).
Proof.
  unfold configure_interface, NetNS, link_lookup, link_set_up, addr_add.
  repeat (apply keeps_mgr_bind; [|intros ?]); auto with mgr.
Qed.

(** A refused link creation leaves the kernel as it was. *)
Lemma link_add_veth_refused (a b : string) (w : world) (e : exn) :
  fst (link_add_veth a b w) = Raise e →
  w_kernel (snd (link_add_veth a b w)) = w_kernel w.
Proof.
  unfold link_add_veth, capability. simpl.
  destruct (w_faults w) as [|[e'|] fs]; simpl; try done;
    by destruct (_ || _).
Qed.

(** An accepted link creation leaves both ends in the default namespace. *)
Lemma link_add_veth_created (a b : string) (w : world) :
  fst (link_add_veth a b w) = Ok tt →
  lookup_link (w_kernel (snd (link_add_veth a b w))) None a ≠ []
  ∧ lookup_link (w_kernel (snd (link_add_veth a b w))) None b ≠ [].
Proof.
  unfold link_add_veth, capability. simpl.
  assert (Hnew : ∀ k,
    lookup_link
      (Kernel (k_netns k)
         (k_links k ++ [Iface (k_next k) a None (Some (S (k_next k))) false [] None;
                        Iface (S (k_next k)) b None (Some (k_next k)) false [] None])
         (S (S (k_next k)))) None a ≠ []
    ∧ lookup_link
      (Kernel (k_netns k)
         (k_links k ++ [Iface (k_next k) a None (Some (S (k_next k))) false [] None;
                        Iface (S (k_next k)) b None (Some (k_next k)) false [] None])
         (S (S (k_next k)))) None b ≠ []).
  { intros k. unfold lookup_link. simpl. rewrite !List.filter_app, !map_app. simpl.
    unfold named. simpl. rewrite !String.eqb_refl.
    split; intros H; apply app_eq_nil in H as [_ H];
      [discriminate H|by destruct (String.eqb a b)]. }
  destruct (w_faults w) as [|[e'|] fs]; simpl; try done;
    destruct (_ || _); simpl; try done; intros _; apply Hnew.
Qed.

(** C8, as amended: [link_nodes] registers the first endpoint's name, and
    only that, as soon as the veth pair is created; whatever fails later,
    that name stays in [created_interfaces].  When the creation itself is
    refused, the call raises and neither kernel nor registry has changed.
    The peer endpoint exists from the same moment and is never registered
    under its own name. *)
Theorem link_nodes_registers_first_endpoint
    (node_a node_b ip_a ip_b : string) (subnet_mask : Z) (w : world) :
  match fst (link_add_veth (if_name_of node_a) (if_name_of node_b) (add_call CIPRoute w)) with
  | Raise e =>
      fst (link_nodes node_a node_b ip_a ip_b subnet_mask w) = Raise e
      ∧ w_kernel (snd (link_nodes node_a node_b ip_a ip_b subnet_mask w)) = w_kernel w
      ∧ w_mgr (snd (link_nodes node_a node_b ip_a ip_b subnet_mask w)) = w_mgr w
  | Ok _ =>
      created_interfaces (w_mgr (snd (link_nodes node_a node_b ip_a ip_b subnet_mask w)))
      = (created_interfaces (w_mgr w) ++ [if_name_of node_a])%list
      ∧ created_namespaces (w_mgr (snd (link_nodes node_a node_b ip_a ip_b subnet_mask w)))
        = created_namespaces (w_mgr w)
      ∧ lookup_link
          (w_kernel (snd (link_add_veth (if_name_of node_a) (if_name_of node_b)
                            (add_call CIPRoute w))))
          None (if_name_of node_a) ≠ []
      ∧ lookup_link
          (w_kernel (snd (link_add_veth (if_name_of node_a) (if_name_of node_b)
                            (add_call CIPRoute w))))
          None (if_name_of node_b) ≠ []
  end.
Proof.
  remember (link_nodes node_a node_b ip_a ip_b subnet_mask w) as out eqn:Hout.
  unfold link_nodes in Hout. fold (if_name_of node_a) (if_name_of node_b) in Hout.
  set (a := if_name_of node_a) in *. set (b := if_name_of node_b) in *.
  unfold try_except, IPRoute, note, bind at 1 2, ret in Hout.
  unfold bind at 1 in Hout.
  destruct (link_add_veth a b (add_call CIPRoute w)) as [[[]|e] w1] eqn:E1; simpl fst.
  - (* the pair exists: the name is registered before anything else runs *)
    assert (Hm1 : w_mgr w1 = w_mgr w).
    { change w1 with (snd (Ok tt, w1)). rewrite <- E1. unfold link_add_veth.
      by rewrite keeps_mgr_capability. }
    unfold bind at 1, register_interface at 1 in Hout.
    match type of Hout with context [bind ?m ?k ?x] =>
      assert (Hrest : w_mgr (snd (bind m k x)) = w_mgr x);
      [|destruct (bind m k x) as [[[]|e] w2]]
    end.
    { apply keeps_mgr_bind.
      - unfold link_lookup. auto with mgr.
      - intros ?. repeat (apply keeps_mgr_bind; [|intros ?]);
          unfold link_lookup, link_set_ns, NetNS, link_set_up, addr_add;
          auto using keeps_mgr_configure with mgr. }
    + subst out. simpl in *. rewrite Hrest, Hm1.
      destruct (link_add_veth_created a b (add_call CIPRoute w)) as [Ha Hb];
        [by rewrite E1|]. rewrite E1 in Ha, Hb. done.
    + subst out. simpl in *. rewrite Hrest, Hm1.
      destruct (link_add_veth_created a b (add_call CIPRoute w)) as [Ha Hb];
        [by rewrite E1|]. rewrite E1 in Ha, Hb. done.
  - assert (Hm1 : w_mgr w1 = w_mgr w).
    { change w1 with (snd (Raise (A:=unit) e, w1)). rewrite <- E1. unfold link_add_veth.
      by rewrite keeps_mgr_capability. }
    assert (Hk1 : w_kernel w1 = w_kernel w).
    { change w1 with (snd (Raise (A:=unit) e, w1)). rewrite <- E1.
      erewrite link_add_veth_refused; [done|]. by rewrite E1. }
    subst out. simpl. by rewrite Hm1, Hk1.
Qed.

(** C8, counterexample: the link between an existing client and a missing
    server fails when the second endpoint is moved; that endpoint,
    [veth-rver], was created by the call and is still in the default
    namespace, and the registry holds [veth-ient] only. *)
Lemma peer_endpoint_created_but_not_registered :
  lookup_link (w_kernel client_only_world) None "veth-rver" = []
  ∧ fst (link_nodes "client" "server" "10.0.0.1" "10.0.0.2" 24 client_only_world)
    = Raise (Exn (KOSError 2) "No such file or directory")
  ∧ lookup_link
      (w_kernel (snd (link_nodes "client" "server" "10.0.0.1" "10.0.0.2" 24 client_only_world)))
      None "veth-rver" = [4%nat]
  ∧ created_interfaces
      (w_mgr (snd (link_nodes "client" "server" "10.0.0.1" "10.0.0.2" 24 client_only_world)))
    = ["veth-ient"]
  ∧ "veth-rver" ∉ created_interfaces
      (w_mgr (snd (link_nodes "client" "server" "10.0.0.1" "10.0.0.2" 24 client_only_world))).
Proof.
  assert (H : created_interfaces
      (w_mgr (snd (link_nodes "client" "server" "10.0.0.1" "10.0.0.2" 24 client_only_world)))
    = ["veth-ient"]) by (vm_compute; reflexivity).
  repeat split; try (vm_compute; reflexivity).
  rewrite H. intros Hin. apply list_elem_of_singleton in Hin. discriminate Hin.
Qed.


(** ** validation.py *)

(** C7, as amended: for a namespace that does not exist, [run_in_ns] does
    spawn and join a unit; the unit finds the namespace missing and reports
    it, the job is never invoked, and the call raises a plain [Exception]
    whose reason names the namespace. *)
Theorem run_in_ns_missing_namespace {A} (ns_name : string) (target : job A) (w : world) :
  ns_name ∉ k_netns (w_kernel w) →
  run_in_ns ns_name target w
  = (Raise (Exn KException (not_found_reason ns_name)),
     add_call (CJoin ns_name) (add_call (CStart ns_name) w)).
Proof.
  intros Hns. unfold run_in_ns, start, join, note, bind, _target_wrapper. simpl.
  unfold netns_path_exists. simpl.
  by rewrite bool_decide_eq_false_2.
Qed.

(** C7, witness. *)
Lemma run_in_ns_ghost :
  ("ghost" ∉ k_netns (w_kernel linked_world))
  ∧ run_in_ns "ghost" (_send_syn "10.0.0.2" 80) linked_world
    = (Raise (Exn KException (not_found_reason "ghost")),
       add_call (CJoin "ghost") (add_call (CStart "ghost") linked_world)).
Proof.
  assert (H : "ghost" ∉ k_netns (w_kernel linked_world)).
  { change (k_netns (w_kernel linked_world)) with ["client"; "server"].
    intros Hin. apply elem_of_cons in Hin as [Hin|Hin]; [discriminate Hin|].
    apply list_elem_of_singleton in Hin. discriminate Hin. }
  split; [exact H|].
  exact (run_in_ns_missing_namespace "ghost" (_send_syn "10.0.0.2" 80) linked_world H).
Defined.

(** C7, counterexample: the namespace is missing, and a unit is started
    and joined all the same; what is raised is the generic [Exception]. *)
Lemma run_in_ns_spawns_for_missing_namespace :
  netns_path_exists "ghost" linked_world = false
  ∧ w_calls (snd (run_in_ns "ghost" (_send_syn "10.0.0.2" 80) linked_world))
    = (w_calls linked_world ++ [CStart "ghost"; CJoin "ghost"])%list
  ∧ w_calls (snd (run_in_ns "ghost" (_send_syn "10.0.0.2" 80) linked_world))
    ≠ w_calls linked_world
  ∧ fst (run_in_ns "ghost" (_send_syn "10.0.0.2" 80) linked_world)
    = Raise (Exn KException "Error in namespace ghost: Namespace ghost not found").
Proof.
  split; [vm_compute; reflexivity|]. split; [vm_compute; reflexivity|].
  split; [|vm_compute; reflexivity].
  intros H. apply (f_equal length) in H. vm_compute in H. discriminate H.
Qed.



Lemma job_extends_send_syn (dst_ip : string) (dport : Z) : job_extends (_send_syn dst_ip dport).
Proof.
  intros ns w. unfold _send_syn, job_bind, send, job_ret.
  exists [CSend ns (TcpSyn dst_ip dport)].
  by destruct (io_send _ _ _) as [[]|e|].
Qed.

Lemma job_extends_send_large_icmp (dst_ip : string) (payload_size : Z) :
  job_extends (_send_large_icmp dst_ip payload_size).
Proof.
  intros ns w. unfold _send_large_icmp, job_bind, send, job_ret.
  exists [CSend ns (IcmpData dst_ip (Z.max 0 payload_size))].
  by destruct (io_send _ _ _) as [[]|e|].
Qed.

Lemma job_extends_sniff_packets (interface : string) (count : Z) (filter_expr : string)
    (timeout : Z) :
  job_extends (_sniff_packets interface count filter_expr timeout).
Proof.
  intros ns w. unfold _sniff_packets, job_bind, sniff, job_ret.
  exists [CSniff ns interface count filter_expr timeout].
  by destruct (io_sniff _ _ _ _ _ _ _) as [ps|e|].
Qed.

Lemma target_wrapper_calls {A} (ns_name : string) (target : job A) (w : world) :
  job_extends target →
  ∃ cs, w_calls (snd (_target_wrapper ns_name target w)) = (w_calls w ++ cs)%list.
Proof.
  intros Ht. unfold _target_wrapper.
  destruct (negb (netns_path_exists ns_name w)).
  { exists []. simpl. by rewrite app_nil_r. }
  unfold bind.
  destruct (capability_frame (COpen ("/var/run/netns/" +:+ ns_name)) (λ k, (Ok tt, k)) w)
    as (_ & _ & Hc1).
  destruct (capability (COpen _) _ w) as [[[]|e] w1]; simpl in Hc1.
  2:{ eexists. simpl. exact Hc1. }
  destruct (capability_frame (CSetns ns_name) (λ k, (Ok tt, k)) w1) as (_ & _ & Hc2).
  destruct (capability (CSetns _) _ w1) as [[[]|e] w2]; simpl in Hc2.
  2:{ eexists. simpl. rewrite Hc2, Hc1, <- app_assoc. reflexivity. }
  destruct (Ht ns_name w2) as [cs Hcs].
  destruct (target ns_name w2) as [[v|e|] w3]; simpl in *;
    eexists; rewrite Hcs, Hc2, Hc1, <- !app_assoc; reflexivity.
Qed.

Lemma run_in_ns_calls {A} (ns_name : string) (target : job A) (w : world) :
  job_extends target →
  (∃ cs, w_calls (snd (run_in_ns ns_name target w))
         = (w_calls w ++ [CStart ns_name; CJoin ns_name] ++ cs)%list)
  ∧ ∀ e, fst (run_in_ns ns_name target w) = Raise e → exn_kind_of e = KException.
Proof.
  intros Ht. unfold run_in_ns, start, join, note, bind. simpl.
  set (w0 := add_call (CJoin ns_name) (add_call (CStart ns_name) w)).
  destruct (target_wrapper_calls ns_name target w0 Ht) as [cs Hcs].
  destruct (_target_wrapper ns_name target w0) as [[|[v|reason] queue] w']; simpl in *.
  - split; [|by intros e [= <-]]. exists cs. by rewrite Hcs, <- !app_assoc.
  - split; [|done]. exists cs. by rewrite Hcs, <- !app_assoc.
  - split; [|by intros e [= <-]]. exists cs. by rewrite Hcs, <- !app_assoc.
Qed.

(** C1, as amended: both assertions start the capture unit in node B,
    sleep one second and then start the stimulus unit in node A, in every
    world: nothing is awaited from the capture unit in between.  When they
    fail, it is with an [AssertionError], or with the [Exception] of the
    stimulus side. *)
Theorem stimulus_follows_fixed_sleep (node_a node_b dst_ip : string)
    (dport mtu payload_size : Z) (interface : string) (w : world) :
  (∃ rest,
     w_calls (snd (test_tcp_handshake node_a node_b dst_ip dport interface w))
     = (w_calls w ++ [CStart node_b; CSleep 1; CStart node_a; CJoin node_a] ++ rest)%list)
  ∧ (∃ rest,
       w_calls (snd (test_mtu_fragmentation node_a node_b dst_ip mtu payload_size interface w))
       = (w_calls w ++ [CStart node_b; CSleep 1; CStart node_a; CJoin node_a] ++ rest)%list)
  ∧ (∀ e, fst (test_tcp_handshake node_a node_b dst_ip dport interface w) = Raise e →
          exn_kind_of e = KAssertionError ∨ exn_kind_of e = KException)
  ∧ (∀ e, fst (test_mtu_fragmentation node_a node_b dst_ip mtu payload_size interface w)
          = Raise e →
          exn_kind_of e = KAssertionError ∨ exn_kind_of e = KException).
Proof.
  assert (Htcp :
    (∃ rest,
       w_calls (snd (test_tcp_handshake node_a node_b dst_ip dport interface w))
       = (w_calls w ++ [CStart node_b; CSleep 1; CStart node_a; CJoin node_a] ++ rest)%list)
    ∧ (∀ e, fst (test_tcp_handshake node_a node_b dst_ip dport interface w) = Raise e →
            exn_kind_of e = KAssertionError ∨ exn_kind_of e = KException)).
  { cbv beta iota zeta
      delta [test_tcp_handshake bind logger start sleep note try_except ret raise
             join terminate proc_ns proc_run any_exception].
    match goal with |- context [run_in_ns node_a ?t ?x] =>
      set (w0 := x);
      destruct (run_in_ns_calls node_a t w0 (job_extends_send_syn dst_ip dport))
        as [[cs Hcs] Hkind];
      destruct (run_in_ns node_a t w0) as [[v|e] w1]
    end; simpl in Hcs; simpl.
    - match goal with |- context [_target_wrapper node_b ?t ?x] =>
        destruct (target_wrapper_calls node_b t x
                    (job_extends_sniff_packets _ _ _ _)) as [cs2 Hcs2];
        destruct (_target_wrapper node_b t x) as [[|[[|p ps]|reason] queue] w2]
      end; simpl in *; rewrite Hcs2, Hcs;
        (split; [eexists; rewrite <- !app_assoc; simpl; reflexivity
                |intros e [= <-]; by left]) || (split; [eexists; rewrite <- !app_assoc; simpl; reflexivity|done]).
    - split.
      + eexists. rewrite Hcs, <- !app_assoc. simpl. reflexivity.
      + intros e' [= <-]. right. by apply Hkind. }
  assert (Hmtu :
    (∃ rest,
       w_calls (snd (test_mtu_fragmentation node_a node_b dst_ip mtu payload_size interface w))
       = (w_calls w ++ [CStart node_b; CSleep 1; CStart node_a; CJoin node_a] ++ rest)%list)
    ∧ (∀ e, fst (test_mtu_fragmentation node_a node_b dst_ip mtu payload_size interface w)
            = Raise e →
            exn_kind_of e = KAssertionError ∨ exn_kind_of e = KException)).
  { cbv beta iota zeta
      delta [test_mtu_fragmentation bind logger start sleep note try_except ret raise
             join terminate proc_ns proc_run any_exception].
    match goal with |- context [run_in_ns node_a ?t ?x] =>
      set (w0 := x);
      destruct (run_in_ns_calls node_a t w0 (job_extends_send_large_icmp dst_ip payload_size))
        as [[cs Hcs] Hkind];
      destruct (run_in_ns node_a t w0) as [[v|e] w1]
    end; simpl in Hcs; simpl.
    - match goal with |- context [_target_wrapper node_b ?t ?x] =>
        destruct (target_wrapper_calls node_b t x
                    (job_extends_sniff_packets _ _ _ _)) as [cs2 Hcs2];
        destruct (_target_wrapper node_b t x) as [[|[ps|reason] queue] w2]
      end; simpl in *; try destruct (_ <? 2)%Z; simpl; rewrite Hcs2, Hcs;
        (split; [eexists; rewrite <- !app_assoc; simpl; reflexivity
                |intros e [= <-]; by left]) || (split; [eexists; rewrite <- !app_assoc; simpl; reflexivity|done]).
    - split.
      + eexists. rewrite Hcs, <- !app_assoc. simpl. reflexivity.
      + intros e' [= <-]. right. by apply Hkind. }
  destruct Htcp as [? ?], Hmtu as [? ?]. done.
Qed.

(** C1, counterexample: node B's namespace does not exist, so its capture
    unit never gets to listen (there is no [sniff] among the calls); the
    SYN is sent from node A all the same, and the assertion fails with an
    [AssertionError] that carries the capture unit's error. *)
Lemma stimulus_sent_to_absent_capture_unit :
  netns_path_exists "ghost" linked_world = false
  ∧ w_calls (snd (test_tcp_handshake "client" "ghost" "10.0.0.2" 80 "veth-rver" linked_world))
    = (w_calls linked_world
       ++ [CStart "ghost"; CSleep 1; CStart "client"; CJoin "client";
           COpen "/var/run/netns/client"; CSetns "client";
           CSend "client" (TcpSyn "10.0.0.2" 80); CJoin "ghost"])%list
  ∧ w_wire (snd (test_tcp_handshake "client" "ghost" "10.0.0.2" 80 "veth-rver" linked_world))
    = [("client", TcpSyn "10.0.0.2" 80)]
  ∧ fst (test_tcp_handshake "client" "ghost" "10.0.0.2" 80 "veth-rver" linked_world)
    = Raise (Exn KAssertionError "Sniffer error on Node B: Namespace ghost not found").
Proof. vm_compute. repeat split. Qed.

(** C1, witness: the same run, read through the theorem. *)
Lemma stimulus_order_with_absent_capture_unit :
  (∃ rest,
     w_calls (snd (test_tcp_handshake "client" "ghost" "10.0.0.2" 80 "veth-rver" linked_world))
     = (w_calls linked_world
        ++ [CStart "ghost"; CSleep 1; CStart "client"; CJoin "client"] ++ rest)%list)
  ∧ (exn_kind_of (Exn KAssertionError "Sniffer error on Node B: Namespace ghost not found")
     = KAssertionError
     ∨ exn_kind_of (Exn KAssertionError "Sniffer error on Node B: Namespace ghost not found")
       = KException).
Proof.
  destruct (stimulus_follows_fixed_sleep "client" "ghost" "10.0.0.2" 80 1500 2000
              "veth-rver" linked_world) as (Horder & _ & Hkind & _).
  split; [exact Horder|].
  apply Hkind. vm_compute. reflexivity.
Defined.

(* ================================================================== *)
(** * Further properties *)
(* ================================================================== *)

(** ** impairment.py: what the translation reads and what it yields *)

(** X1: a key other than [latency], [loss] and [reorder] has no effect on
    the translation, whatever value it carries. *)
Theorem unrecognised_key_ignored (interface : string) (profile : gmap string pyval)
    (k : string) (v : pyval) (w : world) :
  k ≠ "latency" → k ≠ "loss" → k ≠ "reorder" →
  netem_options_of interface (<[k := v]> profile) w
  = netem_options_of interface profile w.
Proof.
  intros H1 H2 H3. unfold netem_options_of, dict_get.
  by rewrite !lookup_insert_ne by done.
Qed.

(** X1, witness: a top-level [jitter] next to a string latency. *)
Lemma top_level_jitter_ignored :
  netem_options_of "veth0" (<["jitter" := PStr "20ms"]> (<["latency" := PStr "100ms"]> ∅))
    fresh_world
  = netem_options_of "veth0" (<["latency" := PStr "100ms"]> ∅) fresh_world.
Proof.
  apply (unrecognised_key_ignored "veth0" (<["latency" := PStr "100ms"]> ∅)
           "jitter" (PStr "20ms") fresh_world); discriminate.
Defined.

Lemma bind_inv {A B} (m : M A) (k : A → M B) (w : world) (b : B) :
  fst (bind m k w) = Ok b →
  ∃ a w', m w = (Ok a, w') ∧ fst (k a w') = Ok b.
Proof.
  unfold bind. destruct (m w) as [[a|e] w']; [|done]. intros H. by exists a, w'.
Qed.

(** X2: a translated configuration has no key beyond [delay], [jitter],
    [loss] and [reorder], and it never has a [jitter] or a [reorder]
    without a [delay]. *)
Theorem translation_shape (profile : gmap string pyval) (cfg : gmap string netem_value) :
  translation profile = Ok cfg →
  (∀ k, is_Some (cfg !! k) → k ∈ ["delay"; "jitter"; "loss"; "reorder"])
  ∧ (is_Some (cfg !! "jitter") → is_Some (cfg !! "delay"))
  ∧ (is_Some (cfg !! "reorder") → is_Some (cfg !! "delay")).
Proof.
  unfold translation, netem_options_of.
  set (opts0 := if truthy (dict_get profile "latency") then _ else _).
  assert (H0 : (∀ k, is_Some (opts0 !! k) → k = "delay" ∨ k = "jitter")
               ∧ (is_Some (opts0 !! "jitter") → is_Some (opts0 !! "delay"))).
  { unfold opts0. destruct (truthy _); [destruct (dict_get profile "latency")|]; split;
      try (intros k [x Hx];
           repeat (apply lookup_insert_Some in Hx as [[<- _]|[_ Hx]]; [by auto|]);
           by rewrite lookup_empty in Hx);
      try (intros [x Hx]; by rewrite ?lookup_insert_ne, ?lookup_empty in Hx by done). }
  destruct H0 as [Hkeys0 Hjit0]. clearbody opts0.
  intros H. apply bind_inv in H as (opts1 & w1 & Hloss & H).
  assert (H1 : opts1 = opts0 ∨ ∃ f, opts1 = <["loss" := NFloat f]> opts0).
  { revert Hloss. unfold bind, lift, ret.
    destruct (dict_get profile "loss"); try (intros [= <- _]; by left);
      match goal with |- context [py_float ?v] => destruct (py_float v) as [f|e] end;
      simpl; try done; intros [= <- _]; right; by exists f. }
  assert (Hkeys1 : ∀ k, is_Some (opts1 !! k) → k = "delay" ∨ k = "jitter" ∨ k = "loss").
  { intros k Hk. destruct H1 as [->|[f ->]].
    - destruct (Hkeys0 k Hk); auto.
    - destruct Hk as [x Hx]. apply lookup_insert_Some in Hx as [[<- _]|[_ Hx]]; [by auto|].
      destruct (Hkeys0 k); eauto. }
  assert (Hjit1 : is_Some (opts1 !! "jitter") → is_Some (opts1 !! "delay")).
  { destruct H1 as [->|[f ->]]; [done|]. by rewrite !lookup_insert_ne by done. }
  clear Hloss H1 Hkeys0 Hjit0.
  assert (H2 : cfg = opts1
               ∨ (∃ f, cfg = <["reorder" := NFloat f]> opts1
                       ∧ <["reorder" := NFloat f]> opts1 !! "delay" ≠ None)
               ∨ ∃ f, cfg = <["delay" := NVal (PStr "10ms")]>
                              (<["reorder" := NFloat f]> opts1)).
  { revert H. unfold bind, lift, ret, logger.
    destruct (dict_get profile "reorder"); try (intros [= <-]; by left);
      match goal with |- context [py_float ?v] => destruct (py_float v) as [f|e] end;
      simpl; try done;
      (case_bool_decide; simpl; intros [= <-]; right; [right|left]; by exists f). }
  assert (Hno : ¬ is_Some (opts1 !! "reorder")).
  { intros Hre. by destruct (Hkeys1 _ Hre) as [?|[?|?]]. }
  destruct H2 as [Hc|[[f [Hc Hd]]|[f Hc]]]; subst cfg.
  - split; [|split; [done|by intros ?]].
    intros k Hk. destruct (Hkeys1 k Hk) as [-> | [-> | ->]]; by repeat constructor.
  - split; [|split].
    + intros k [x Hx]. apply lookup_insert_Some in Hx as [[<- _]|[_ Hx]];
        [by repeat constructor|].
      destruct (Hkeys1 k) as [-> | [-> | ->]]; eauto; by repeat constructor.
    + intros _. by apply not_eq_None_Some.
    + intros _. by apply not_eq_None_Some.
  - split; [|split].
    + intros k [x Hx]. apply lookup_insert_Some in Hx as [[<- _]|[_ Hx]];
        [by repeat constructor|].
      apply lookup_insert_Some in Hx as [[<- _]|[_ Hx]]; [by repeat constructor|].
      destruct (Hkeys1 k) as [-> | [-> | ->]]; eauto; by repeat constructor.
    + intros _. by rewrite lookup_insert_eq.
    + intros _. by rewrite lookup_insert_eq.
Qed.

(** X2, witness: the CLI's reorder profile. *)
Lemma cli_reorder_translation_shape :
  translation (cli_profile "reorder")
  = Ok (<["reorder" := NFloat (FloatOfInt 10)]> (<["delay" := NVal (PStr "10ms")]> ∅))
  ∧ is_Some ((<["reorder" := NFloat (FloatOfInt 10)]>
                (<["delay" := NVal (PStr "10ms")]> ∅) : gmap string netem_value) !! "delay").
Proof.
  assert (H : translation (cli_profile "reorder")
              = Ok (<["reorder" := NFloat (FloatOfInt 10)]>
                      (<["delay" := NVal (PStr "10ms")]> ∅)))
    by (vm_compute; reflexivity).
  split; [exact H|].
  destruct (translation_shape _ _ H) as (_ & _ & Hre). apply Hre.
  rewrite lookup_insert_eq. by eexists.
Defined.

(** ** impairment.py: what apply_profile does at its edges *)

(** X3: a loss or reorder value that [float()] rejects makes [apply_profile]
    raise that error before anything else happens: nothing is logged, no
    capability is called, the world is as it was. *)
Theorem apply_profile_rejects_bad_number (namespace : option string) (interface : string)
    (profile : gmap string pyval) (w : world) (e : exn) :
  (dict_get profile "loss" ≠ PNone ∧ py_float (dict_get profile "loss") = Raise e)
  ∨ (none_or_number (dict_get profile "loss") = true
     ∧ dict_get profile "reorder" ≠ PNone
     ∧ py_float (dict_get profile "reorder") = Raise e) →
  apply_profile namespace interface profile w = (Raise e, w).
Proof.
  intros [[Hset Hbad]|(Hloss & Hset & Hbad)]; unfold apply_profile, netem_options_of.
  - unfold bind at 1 2. unfold bind, lift. rewrite Hbad.
    by destruct (dict_get profile "loss").
  - unfold bind at 1.
    match goal with |- context [bind ?m ?k w] =>
      destruct (loss_step profile w
                  (if truthy (dict_get profile "latency")
                   then match dict_get profile "latency" with
                        | PDict d =>
                            <["jitter" := NVal (dict_get_default d "jitter" (PStr "0ms"))]>
                              (<["delay" := NVal (dict_get_default d "delay" (PStr "0ms"))]> ∅)
                        | _ => <["delay" := NVal (PStr (py_str (dict_get profile "latency")))]> ∅
                        end
                   else ∅) Hloss) as (opts & Hstep & _)
    end.
    erewrite bind_ok by exact Hstep.
    unfold bind, lift. rewrite Hbad.
    by destruct (dict_get profile "reorder").
Qed.

(** X3, witness: [{'loss': 'abc'}]. *)
Lemma apply_profile_rejects_loss_abc :
  dict_get bad_loss_profile "loss" ≠ PNone
  ∧ apply_profile (Some "client") "veth-ient" bad_loss_profile linked_world
    = (Raise (Exn KValueError "could not convert string to float: 'abc'"), linked_world).
Proof.
  assert (H : dict_get bad_loss_profile "loss" ≠ PNone) by discriminate.
  split; [exact H|].
  apply apply_profile_rejects_bad_number. left. split; [exact H|reflexivity].
Defined.

(** X4: a profile with no latency (or a falsy one), no loss and no reorder
    is a no-op: [apply_profile] logs that it skips and returns; it calls no
    capability, so that a configuration already active on the endpoint
    stays active. *)
Theorem apply_profile_skips_empty_translation (namespace : option string)
    (interface : string) (profile : gmap string pyval) (w : world) :
  truthy (dict_get profile "latency") = false →
  dict_get profile "loss" = PNone →
  dict_get profile "reorder" = PNone →
  apply_profile namespace interface profile w
  = (Ok tt, add_log (Log INFO ("No valid impairments found in profile for "
                               +:+ interface +:+ ". Skipping.")) w).
Proof.
  intros Hlat Hloss Hre. unfold apply_profile, netem_options_of.
  by rewrite Hlat, Hloss, Hre.
Qed.

(** X4, witness: the CLI's [none] profile on an impaired endpoint. *)
Lemma none_profile_keeps_impairment :
  active_config (w_kernel impaired_world) (Some "client") "veth-ient" = Some latency_config
  ∧ fst (apply_profile (Some "client") "veth-ient" (cli_profile "none") impaired_world) = Ok tt
  ∧ active_config
      (w_kernel (snd (apply_profile (Some "client") "veth-ient" (cli_profile "none")
                        impaired_world)))
      (Some "client") "veth-ient" = Some latency_config.
Proof.
  assert (H : active_config (w_kernel impaired_world) (Some "client") "veth-ient"
              = Some latency_config) by (vm_compute; reflexivity).
  rewrite (apply_profile_skips_empty_translation (Some "client") "veth-ient"
             (cli_profile "none") impaired_world); [|reflexivity..].
  by repeat split.
Defined.



(** ** The capability under a fault script *)

Lemma capability_pass {A} (c : call) (natural : kernel → result A * kernel) (w : world)
    (fs : list (option exn)) :
  w_faults w = None :: fs →
  capability c natural w
  = (fst (capability c natural (set_faults [] w)),
     set_faults fs (snd (capability c natural (set_faults [] w)))).
Proof.
  intros H. unfold capability. simpl. rewrite H.
  by destruct (natural (w_kernel w)).
Qed.

Lemma capability_fault {A} (c : call) (natural : kernel → result A * kernel) (w : world)
    (fs : list (option exn)) (e : exn) :
  w_faults w = Some e :: fs →
  capability c natural w = (Raise e, set_faults fs (add_call c w)).
Proof. intros H. unfold capability. simpl. by rewrite H. Qed.




(** ** topology.py: nodes, names and the registry *)

(** X7: what [create_node] does with the answer of [NetNS(name)].  Without
    an injected fault the namespace exists afterwards and the name is
    registered.  [OSError] 17 is tolerated: a warning, and the name is
    registered all the same.  Any other [OSError] is logged and raised
    again with nothing registered; an error of another class passes
    through unlogged. *)
Theorem create_node_outcomes (name : string) (w : world) :
  match w_faults w with
  | Some e :: fs =>
      w_kernel (snd (create_node name w)) = w_kernel w
      ∧ match exn_kind_of e with
        | KOSError errno =>
            if errno =? 17 then
              fst (create_node name w) = Ok tt
              ∧ created_namespaces (w_mgr (snd (create_node name w)))
                = (created_namespaces (w_mgr w) ++ [name])%list
              ∧ w_log (snd (create_node name w))
                = (w_log w ++ [Log WARNING ("Namespace " +:+ name +:+ " already exists.")])%list
            else
              fst (create_node name w) = Raise e
              ∧ w_mgr (snd (create_node name w)) = w_mgr w
              ∧ w_log (snd (create_node name w))
                = (w_log w ++ [Log ERROR ("Failed to create namespace " +:+ name +:+ ": "
                                          +:+ exn_msg e)])%list
        | _ =>
            fst (create_node name w) = Raise e
            ∧ w_mgr (snd (create_node name w)) = w_mgr w
            ∧ w_log (snd (create_node name w)) = w_log w
        end
  | _ =>
      fst (create_node name w) = Ok tt
      ∧ name ∈ k_netns (w_kernel (snd (create_node name w)))
      ∧ created_namespaces (w_mgr (snd (create_node name w)))
        = (created_namespaces (w_mgr w) ++ [name])%list
      ∧ created_interfaces (w_mgr (snd (create_node name w))) = created_interfaces (w_mgr w)
      ∧ w_log (snd (create_node name w))
        = (w_log w ++ [Log INFO ("Created namespace: " +:+ name)])%list
  end.
Proof.
  assert (Hnat : ∀ w0, w_faults w0 = [] →
    fst (create_node name w0) = Ok tt
    ∧ name ∈ k_netns (w_kernel (snd (create_node name w0)))
    ∧ created_namespaces (w_mgr (snd (create_node name w0)))
      = (created_namespaces (w_mgr w0) ++ [name])%list
    ∧ created_interfaces (w_mgr (snd (create_node name w0))) = created_interfaces (w_mgr w0)
    ∧ w_log (snd (create_node name w0))
      = (w_log w0 ++ [Log INFO ("Created namespace: " +:+ name)])%list).
  { intros w0 Hf. unfold create_node, try_except, bind, NetNS.
    rewrite capability_no_fault by done.
    case_bool_decide as Hin; simpl; repeat split; try done.
    apply elem_of_app. right. by apply list_elem_of_singleton. }
  destruct (w_faults w) as [|[e|] fs] eqn:Hf.
  - by apply Hnat.
  - unfold create_node, try_except, bind, NetNS.
    rewrite (capability_fault _ _ _ fs e) by done.
    unfold os_error. destruct e as [kind msg]. simpl.
    destruct kind as [| | | | | |errno|code]; simpl; try done.
    destruct (errno =? 17) eqn:E.
    + apply Z.eqb_eq in E. by subst errno.
    + apply Z.eqb_neq in E.
      destruct errno as [|p|p]; simpl; try done.
      do 5 (try destruct p as [p|p|]; simpl; try done).
  - unfold create_node, try_except, bind, NetNS.
    rewrite (capability_pass _ _ _ fs) by done.
    rewrite capability_no_fault by done.
    case_bool_decide as Hin; simpl; repeat split; try done.
    apply elem_of_app. right. by apply list_elem_of_singleton.
Qed.


(** [create_node] adds at most its name to the registered namespaces and
    leaves the rest of the manager alone. *)
Lemma create_node_registry (name : string) (w : world) :
  (created_namespaces (w_mgr (snd (create_node name w))) = created_namespaces (w_mgr w)
   ∨ created_namespaces (w_mgr (snd (create_node name w)))
     = (created_namespaces (w_mgr w) ++ [name])%list)
  ∧ created_interfaces (w_mgr (snd (create_node name w))) = created_interfaces (w_mgr w)
  ∧ ndb_closed (w_mgr (snd (create_node name w))) = ndb_closed (w_mgr w).
Proof.
  unfold create_node, try_except, bind, NetNS.
  match goal with |- context [capability ?c ?n w] =>
    destruct (capability_frame c n w) as (Hm & _ & _);
    destruct (capability c n w) as [[r|e] w1]
  end; simpl in *.
  - rewrite Hm. auto.
  - destruct (os_error e); simpl; [|rewrite Hm; auto].
    destruct (exn_kind_of e) as [| | | | | |errno|code]; simpl; try (rewrite Hm; by auto).
    destruct errno as [|p|p]; simpl; try (rewrite Hm; by auto).
    do 5 (try destruct p as [p|p|]; simpl; try (rewrite Hm; by auto)).
Qed.

(** [link_nodes] adds at most the first endpoint's name to the registered
    interfaces and leaves the rest of the manager alone. *)
Lemma link_nodes_registry (node_a node_b ip_a ip_b : string) (subnet_mask : Z) (w : world) :
  (created_interfaces (w_mgr (snd (link_nodes node_a node_b ip_a ip_b subnet_mask w)))
   = created_interfaces (w_mgr w)
   ∨ created_interfaces (w_mgr (snd (link_nodes node_a node_b ip_a ip_b subnet_mask w)))
     = (created_interfaces (w_mgr w) ++ [if_name_of node_a])%list)
  ∧ created_namespaces (w_mgr (snd (link_nodes node_a node_b ip_a ip_b subnet_mask w)))
    = created_namespaces (w_mgr w)
  ∧ ndb_closed (w_mgr (snd (link_nodes node_a node_b ip_a ip_b subnet_mask w)))
    = ndb_closed (w_mgr w).
Proof.
  remember (link_nodes node_a node_b ip_a ip_b subnet_mask w) as out eqn:Hout.
  unfold link_nodes in Hout. fold (if_name_of node_a) (if_name_of node_b) in Hout.
  set (a := if_name_of node_a) in *. set (b := if_name_of node_b) in *.
  unfold try_except, IPRoute, note, bind at 1 2, ret in Hout.
  unfold bind at 1 in Hout.
  assert (Hm1 : w_mgr (snd (link_add_veth a b (add_call CIPRoute w))) = w_mgr w).
  { unfold link_add_veth. by rewrite keeps_mgr_capability. }
  destruct (link_add_veth a b (add_call CIPRoute w)) as [[[]|e] w1]; simpl in Hm1.
  - unfold bind at 1, register_interface at 1 in Hout.
    match type of Hout with context [bind ?m ?k ?x] =>
      assert (Hrest : w_mgr (snd (bind m k x)) = w_mgr x);
      [|destruct (bind m k x) as [[[]|e] w2]]
    end.
    { apply keeps_mgr_bind.
      - unfold link_lookup. auto with mgr.
      - intros ?. repeat (apply keeps_mgr_bind; [|intros ?]);
          unfold link_lookup, link_set_ns, NetNS, link_set_up, addr_add;
          auto using keeps_mgr_configure with mgr. }
    + subst out. simpl in *. rewrite Hrest, Hm1. auto.
    + subst out. simpl in *. rewrite Hrest, Hm1. auto.
  - subst out. simpl. rewrite Hm1. auto.
Qed.

(** X8: the registry only grows on the setup path.  Whatever sequence of
    [create_node] and [link_nodes] calls runs, and whichever of them fail,
    everything registered before is still registered afterwards, in the
    same order, and the NDB stays as it was. *)
Theorem registry_grows_during_setup (ops : list manager_op) (w : world) :
  forallb is_setup ops = true →
  created_namespaces (w_mgr w) `prefix_of` created_namespaces (w_mgr (run_ops ops w))
  ∧ created_interfaces (w_mgr w) `prefix_of` created_interfaces (w_mgr (run_ops ops w))
  ∧ ndb_closed (w_mgr (run_ops ops w)) = ndb_closed (w_mgr w).
Proof.
  revert w. induction ops as [|op ops IH]; intros w Hops; simpl.
  - done.
  - simpl in Hops. apply andb_true_iff in Hops as [Hop Hops].
    destruct (IH (snd (run_op op w)) Hops) as (Hn & Hi & Hc).
    assert (Hstep :
      created_namespaces (w_mgr w) `prefix_of` created_namespaces (w_mgr (snd (run_op op w)))
      ∧ created_interfaces (w_mgr w) `prefix_of` created_interfaces (w_mgr (snd (run_op op w)))
      ∧ ndb_closed (w_mgr (snd (run_op op w))) = ndb_closed (w_mgr w)).
    { destruct op as [name|a b ip_a ip_b m|]; simpl; [| |done].
      - destruct (create_node_registry name w) as ([->| ->] & -> & ->);
          repeat split; try done. by apply prefix_app_r.
      - destruct (link_nodes_registry a b ip_a ip_b m w) as ([->| ->] & -> & ->);
          repeat split; try done. by apply prefix_app_r. }
    destruct Hstep as (Hn1 & Hi1 & Hc1).
    split; [by etrans|]. split; [by etrans|]. by rewrite Hc, Hc1.
Qed.

(** X8, witness: the runner's setup on a fresh host. *)
Lemma registry_after_client_server :
  forallb is_setup client_server = true
  ∧ created_namespaces (w_mgr fresh_world)
    `prefix_of` created_namespaces (w_mgr (run_ops client_server fresh_world))
  ∧ created_namespaces (w_mgr (run_ops client_server fresh_world)) = ["client"; "server"]
  ∧ created_interfaces (w_mgr (run_ops client_server fresh_world)) = ["veth-ient"].
Proof.
  destruct (registry_grows_during_setup client_server fresh_world eq_refl) as (Hn & _ & _).
  split; [reflexivity|]. split; [exact Hn|]. split; vm_compute; reflexivity.
Defined.

(** X9: two node names that end in the same four characters get the same
    interface name at both ends, and [link_nodes] cannot link them: on a
    capability that does not fail the link creation is refused with
    [File exists], the error is logged and raised, and neither kernel nor
    registry has changed. *)
Theorem link_nodes_name_collision (node_a node_b ip_a ip_b : string) (subnet_mask : Z)
    (w : world) :
  py_suffix 4 node_a = py_suffix 4 node_b →
  w_faults w = [] →
  fst (link_nodes node_a node_b ip_a ip_b subnet_mask w)
  = Raise (Exn (KNetlinkError 17) "File exists")
  ∧ w_kernel (snd (link_nodes node_a node_b ip_a ip_b subnet_mask w)) = w_kernel w
  ∧ w_mgr (snd (link_nodes node_a node_b ip_a ip_b subnet_mask w)) = w_mgr w
  ∧ w_log (snd (link_nodes node_a node_b ip_a ip_b subnet_mask w))
    = (w_log w ++ [Log ERROR ("Failed to link nodes " +:+ node_a +:+ " and " +:+ node_b
                              +:+ ": File exists")])%list.
Proof.
  intros Hsame Hf.
  assert (Hrun : link_nodes node_a node_b ip_a ip_b subnet_mask w
    = (Raise (Exn (KNetlinkError 17) "File exists"),
       add_log (Log ERROR ("Failed to link nodes " +:+ node_a +:+ " and " +:+ node_b
                           +:+ ": File exists"))
         (add_call (CLinkAdd (if_name_of node_b) (if_name_of node_b))
            (add_call CIPRoute w)))).
  { unfold link_nodes. rewrite Hsame. fold (if_name_of node_b).
    unfold try_except, IPRoute, note, bind at 1 2, ret.
    unfold bind at 1, link_add_veth. rewrite capability_no_fault by done.
    cbn [w_kernel add_call fst snd]. rewrite String.eqb_refl. simpl.
    by destruct w as [[]]. }
  rewrite Hrun. by simpl.
Qed.

(** X9, witness: [alpha-node] and [beta-node]. *)
Lemma alpha_node_beta_node_collide :
  py_suffix 4 "alpha-node" = py_suffix 4 "beta-node"
  ∧ fst (link_nodes "alpha-node" "beta-node" "10.0.0.1" "10.0.0.2" 24
           (run_ops [OpCreateNode "alpha-node"; OpCreateNode "beta-node"] fresh_world))
    = Raise (Exn (KNetlinkError 17) "File exists").
Proof.
  split; [reflexivity|].
  apply (link_nodes_name_collision "alpha-node" "beta-node" "10.0.0.1" "10.0.0.2" 24
           (run_ops [OpCreateNode "alpha-node"; OpCreateNode "beta-node"] fresh_world));
    reflexivity.
Defined.

Lemma substring_length_le (n m : nat) (s : string) :
  (String.length (String.substring n m s) ≤ m)%nat.
Proof.
  revert n m. induction s as [|c s IH]; intros n m.
  - destruct n, m; simpl; lia.
  - destruct n as [|n]; [destruct m as [|m]|]; simpl; [lia| |apply IH].
    specialize (IH 0%nat m). lia.
Qed.

Lemma append_length (s1 s2 : string) :
  String.length (s1 +:+ s2) = (String.length s1 + String.length s2)%nat.
Proof. induction s1 as [|c s1 IH]; simpl; [done|by rewrite IH]. Qed.

(** X10: the interface name derived from a node name is never longer than
    nine characters, however long the node name is. *)
Theorem if_name_of_short (node : string) :
  (String.length (if_name_of node) ≤ 9)%nat.
Proof.
  unfold if_name_of, py_suffix. rewrite append_length. simpl.
  pose proof (substring_length_le (String.length node - 4) 4 node). lia.
Qed.

(** ** topology.py: what cleanup leaves in the kernel *)

Lemma cleanup_interface_no_fault (ifname : string) (w : world) :
  w_faults w = [] →
  ∃ w', cleanup_interface None ifname w = (Ok tt, w')
        ∧ w_faults w' = []
        ∧ k_netns (w_kernel w') = k_netns (w_kernel w)
        ∧ w_mgr w' = w_mgr w.
Proof.
  intros Hf. unfold cleanup_interface, try_except.
  erewrite bind_ok by (by apply link_lookup_no_fault).
  destruct (lookup_link (w_kernel w) None ifname) as [|i l] eqn:Hl.
  { eexists. split; [reflexivity|]. by simpl. }
  unfold bind, link_del. rewrite capability_no_fault by done.
  cbn [w_kernel add_call fst snd]. rewrite Hl. simpl.
  eexists. split; [reflexivity|]. by simpl.
Qed.

Lemma cleanup_namespace_no_fault (ns_name : string) (w : world) :
  w_faults w = [] →
  ∃ w', cleanup_namespace ns_name w = (Ok tt, w')
        ∧ w_faults w' = []
        ∧ (∀ m, m ∈ k_netns (w_kernel w') → m ∈ k_netns (w_kernel w) ∧ m ≠ ns_name).
Proof.
  intros Hf. unfold cleanup_namespace, try_except, bind, netns_remove.
  rewrite capability_no_fault by done.
  case_bool_decide as Hin; simpl.
  - eexists. split; [reflexivity|]. simpl. split; [done|].
    intros m Hm. apply list_elem_of_In, filter_In in Hm as [Hm Hne].
    split; [by apply list_elem_of_In|].
    intros ->. by rewrite String.eqb_refl in Hne.
  - eexists. split; [reflexivity|]. simpl. split; [done|].
    intros m Hm. split; [done|]. by intros ->.
Qed.

Lemma cleanup_interfaces_no_fault (ifnames : list string) (w : world) :
  w_faults w = [] →
  ∃ w', for_each ifnames (cleanup_interface None) w = (Ok tt, w')
        ∧ w_faults w' = []
        ∧ k_netns (w_kernel w') = k_netns (w_kernel w)
        ∧ w_mgr w' = w_mgr w.
Proof.
  revert w. induction ifnames as [|n ns IH]; intros w Hf; simpl.
  - by exists w.
  - destruct (cleanup_interface_no_fault n w Hf) as (w1 & E1 & Hf1 & Hk1 & Hm1).
    destruct (IH w1 Hf1) as (w2 & E2 & Hf2 & Hk2 & Hm2).
    exists w2. erewrite bind_ok by exact E1.
    by rewrite Hk2, Hk1, Hm2, Hm1.
Qed.

Lemma cleanup_namespaces_no_fault (names : list string) (w : world) :
  w_faults w = [] →
  ∃ w', for_each names cleanup_namespace w = (Ok tt, w')
        ∧ w_faults w' = []
        ∧ (∀ m, m ∈ k_netns (w_kernel w') → m ∈ k_netns (w_kernel w) ∧ m ∉ names).
Proof.
  revert w. induction names as [|n ns IH]; intros w Hf; simpl.
  - exists w. repeat split; try done. apply not_elem_of_nil.
  - destruct (cleanup_namespace_no_fault n w Hf) as (w1 & E1 & Hf1 & Hk1).
    destruct (IH w1 Hf1) as (w2 & E2 & Hf2 & Hk2).
    exists w2. erewrite bind_ok by exact E1.
    split; [done|]. split; [done|].
    intros m Hm. destruct (Hk2 m Hm) as [Hm1 Hnot]. destruct (Hk1 m Hm1) as [Hm0 Hne].
    split; [done|]. intros Hin. apply elem_of_cons in Hin as [->|Hin]; done.
Qed.

(** X11: on a capability that does not fail, [cleanup] leaves no registered
    namespace in the kernel, and it creates none: every namespace that
    exists afterwards existed before and was not registered. *)
Theorem cleanup_removes_registered_namespaces (w : world) :
  w_faults w = [] →
  ∀ m, m ∈ k_netns (w_kernel (snd (cleanup w))) →
       m ∈ k_netns (w_kernel w) ∧ m ∉ created_namespaces (w_mgr w).
Proof.
  intros Hf.
  set (w0 := add_call CIPRoute (add_log (Log INFO "Cleaning up network resources...") w)).
  destruct (cleanup_interfaces_no_fault (created_interfaces (w_mgr w)) w0)
    as (w1 & E1 & Hf1 & Hk1 & Hm1); [done|].
  destruct (cleanup_namespaces_no_fault (created_namespaces (w_mgr w)) w1)
    as (w2 & E2 & Hf2 & Hk2); [done|].
  assert (Hrun : w_kernel (snd (cleanup w)) = w_kernel w2).
  { unfold cleanup, IPRoute, logger, note, get_mgr, ndb_close, bind at 1 2 3 4 5, ret.
    fold w0. simpl w_mgr at 1. change (w_mgr w0) with (w_mgr w).
    unfold bind at 1. rewrite E1.
    unfold bind at 1. rewrite Hm1. change (w_mgr w0) with (w_mgr w).
    unfold bind at 1. rewrite E2. reflexivity. }
  rewrite Hrun. intros m Hm. destruct (Hk2 m Hm) as [Hm1' Hnot].
  split; [|done]. rewrite Hk1 in Hm1'. exact Hm1'.
Qed.

(** X11, witness: after the runner's setup, [cleanup] leaves no namespace. *)
Lemma cleanup_of_linked_world_leaves_no_namespace :
  w_faults linked_world = []
  ∧ k_netns (w_kernel linked_world) = ["client"; "server"]
  ∧ k_netns (w_kernel (snd (cleanup linked_world))) = [].
Proof.
  split; [reflexivity|]. split; [reflexivity|].
  destruct (k_netns (w_kernel (snd (cleanup linked_world)))) as [|m ms] eqn:E; [done|].
  destruct (cleanup_removes_registered_namespaces linked_world eq_refl m) as [Hin Hnot].
  - rewrite E. apply elem_of_cons. by left.
  - exfalso. apply Hnot. exact Hin.
Defined.

(** ** validation.py: what the executor hands back *)

Lemma entered_no_fault {A} (ns_name : string) (target : job A) (w : world) :
  ns_name ∈ k_netns (w_kernel w) →
  w_faults w = [] →
  _target_wrapper ns_name target (add_call (CJoin ns_name) (add_call (CStart ns_name) w))
  = (match fst (target ns_name (entered ns_name w)) with
     | Returned result => [Succeeded result]
     | Raised e => [Failed (exn_msg e)]
     | Died => []
     end,
     snd (target ns_name (entered ns_name w))).
Proof.
  intros Hns Hf. unfold _target_wrapper, netns_path_exists. simpl w_kernel.
  rewrite bool_decide_eq_true_2 by done. simpl negb. cbv iota.
  unfold bind. rewrite capability_no_fault by done. simpl.
  rewrite capability_no_fault by done. simpl.
  replace (set_kernel _ _) with (entered ns_name w) by (by destruct w).
  by destruct (target ns_name (entered ns_name w)) as [[v|e|] w2].
Qed.

Lemma target_wrapper_no_fault {A} (ns_name : string) (target : job A) (w : world) :
  ns_name ∈ k_netns (w_kernel w) →
  w_faults w = [] →
  _target_wrapper ns_name target w
  = (match fst (target ns_name (opened ns_name w)) with
     | Returned result => [Succeeded result]
     | Raised e => [Failed (exn_msg e)]
     | Died => []
     end,
     snd (target ns_name (opened ns_name w))).
Proof.
  intros Hns Hf. unfold _target_wrapper, netns_path_exists.
  rewrite bool_decide_eq_true_2 by done. simpl negb. cbv iota.
  unfold bind. rewrite capability_no_fault by done. simpl.
  rewrite capability_no_fault by done. simpl.
  replace (set_kernel _ _) with (opened ns_name w) by (by destruct w).
  by destruct (target ns_name (opened ns_name w)) as [[v|e|] w2].
Qed.

Lemma run_in_ns_no_fault {A} (ns_name : string) (target : job A) (w : world) :
  ns_name ∈ k_netns (w_kernel w) →
  w_faults w = [] →
  run_in_ns ns_name target w
  = (match fst (target ns_name (entered ns_name w)) with
     | Returned v => Ok v
     | Raised e =>
         Raise (Exn KException ("Error in namespace " +:+ ns_name +:+ ": " +:+ exn_msg e))
     | Died => Raise (Exn KException "Process died without returning result")
     end,
     snd (target ns_name (entered ns_name w))).
Proof.
  intros Hns Hf. unfold run_in_ns, start, join, note, bind. simpl.
  rewrite entered_no_fault by done.
  by destruct (target ns_name (entered ns_name w)) as [[v|e|] w2].
Qed.



(** X13: when the spawned unit cannot open or enter its namespace, the job
    is never invoked: [run_in_ns] raises an [Exception] that carries the
    error's message, and the world shows the unit's calls only. *)
Theorem run_in_ns_entry_failure {A} (ns_name : string) (target : job A) (w : world)
    (e : exn) (fs : list (option exn)) :
  ns_name ∈ k_netns (w_kernel w) →
  (w_faults w = Some e :: fs →
   run_in_ns ns_name target w
   = (Raise (Exn KException ("Error in namespace " +:+ ns_name +:+ ": " +:+ exn_msg e)),
      set_faults fs
        (add_call (COpen ("/var/run/netns/" +:+ ns_name))
           (add_call (CJoin ns_name) (add_call (CStart ns_name) w)))))
  ∧ (w_faults w = None :: Some e :: fs →
     run_in_ns ns_name target w
     = (Raise (Exn KException ("Error in namespace " +:+ ns_name +:+ ": " +:+ exn_msg e)),
        set_faults fs (entered ns_name w))).
Proof.
  intros Hns. split; intros Hf;
    unfold run_in_ns, start, join, note, bind at 1 2, _target_wrapper, netns_path_exists;
    cbn [proc_ns proc_run w_kernel add_call];
    rewrite bool_decide_eq_true_2 by done; cbn [negb]; unfold bind at 1.
  - by rewrite (capability_fault _ _ _ fs e) by done.
  - rewrite (capability_pass _ _ _ (Some e :: fs)) by done.
    rewrite capability_no_fault by done. cbn [fst snd].
    rewrite (capability_fault _ _ _ fs e) by done.
    by destruct w.
Qed.

(** X13, witness: [setns] is refused. *)
Lemma run_in_ns_setns_refused :
  ("client" ∈ k_netns (w_kernel linked_world))
  ∧ fst (run_in_ns "client" (_send_syn "10.0.0.2" 80)
           (set_faults [None; Some permission_denied] linked_world))
    = Raise (Exn KException "Error in namespace client: Operation not permitted")
  ∧ w_wire (snd (run_in_ns "client" (_send_syn "10.0.0.2" 80)
                   (set_faults [None; Some permission_denied] linked_world))) = [].
Proof.
  assert (H : "client" ∈ k_netns (w_kernel linked_world)).
  { change (k_netns (w_kernel linked_world)) with ["client"; "server"].
    apply elem_of_cons. by left. }
  split; [exact H|].
  destruct (run_in_ns_entry_failure "client" (_send_syn "10.0.0.2" 80)
              (set_faults [None; Some permission_denied] linked_world)
              permission_denied [] H) as [_ Hsetns].
  rewrite (Hsetns eq_refl). by split.
Defined.

(** ** validation.py: the verdicts of the two assertions *)

Lemma send_syn_goes_through (node_a dst_ip : string) (dport : Z) (w : world) :
  io_send (w_io w) node_a (TcpSyn dst_ip dport) = Returned tt →
  _send_syn dst_ip dport node_a w
  = (Returned (TcpSyn dst_ip dport),
     add_wire (node_a, TcpSyn dst_ip dport) (add_call (CSend node_a (TcpSyn dst_ip dport)) w)).
Proof.
  intros H. unfold _send_syn, job_bind, send, job_ret. simpl. by rewrite H.
Qed.

Lemma send_large_icmp_goes_through (node_a dst_ip : string) (payload_size : Z) (w : world) :
  io_send (w_io w) node_a (IcmpData dst_ip (Z.max 0 payload_size)) = Returned tt →
  _send_large_icmp dst_ip payload_size node_a w
  = (Returned (IcmpData dst_ip (Z.max 0 payload_size)),
     add_wire (node_a, IcmpData dst_ip (Z.max 0 payload_size))
       (add_call (CSend node_a (IcmpData dst_ip (Z.max 0 payload_size))) w)).
Proof.
  intros H. unfold _send_large_icmp, job_bind, send, job_ret. simpl. by rewrite H.
Qed.

(** X14: when both namespaces exist, the capability does not fail and the
    SYN goes out, the verdict of [test_tcp_handshake] is decided by what the
    capture in node B yields with that SYN on the wire: at least one packet
    passes; none, a capture error or a dead capture unit fail with an
    [AssertionError]. *)
Theorem tcp_handshake_verdict (node_a node_b dst_ip : string) (dport : Z)
    (interface : string) (w : world) :
  w_faults w = [] →
  node_a ∈ k_netns (w_kernel w) →
  node_b ∈ k_netns (w_kernel w) →
  io_send (w_io w) node_a (TcpSyn dst_ip dport) = Returned tt →
  fst (test_tcp_handshake node_a node_b dst_ip dport interface w)
  = match io_sniff (w_io w) node_b interface 1 (syn_filter dst_ip) 5
            (w_wire w ++ [(node_a, TcpSyn dst_ip dport)]) with
    | Returned [] => Raise (Exn KAssertionError "TCP SYN packet not received at Node B")
    | Returned (_ :: _) => Ok true
    | Raised e => Raise (Exn KAssertionError ("Sniffer error on Node B: " +:+ exn_msg e))
    | Died =>
        Raise (Exn KAssertionError "Sniffer on Node B failed to capture packet or timeout.")
    end.
Proof.
  intros Hf Ha Hb Hsend.
  cbv beta iota zeta
    delta [test_tcp_handshake bind logger start sleep note try_except ret raise
           join terminate proc_ns proc_run any_exception].
  rewrite run_in_ns_no_fault by done.
  rewrite send_syn_goes_through by done. cbn [fst snd].
  fold (syn_filter dst_ip).
  rewrite target_wrapper_no_fault by done.
  unfold _sniff_packets, job_bind, sniff, job_ret. cbn -[syn_filter].
  by destruct (io_sniff _ _ _ _ _ _ _) as [[|p ps]|e|].
Qed.

(** X14, witness: the SYN arrives on a wire that delivers, and the
    assertion fails on a wire where nothing arrives. *)
Lemma tcp_handshake_passes_and_fails :
  fst (test_tcp_handshake "client" "server" "10.0.0.2" 80 "veth-rver" linked_world) = Ok true
  ∧ fst (test_tcp_handshake "client" "server" "10.0.0.2" 80 "veth-rver" silent_world)
    = Raise (Exn KAssertionError "TCP SYN packet not received at Node B").
Proof.
  assert (Hc : "client" ∈ ["client"; "server"]) by (apply elem_of_cons; by left).
  assert (Hs : "server" ∈ ["client"; "server"]).
  { apply elem_of_cons. right. by apply list_elem_of_singleton. }
  split.
  - rewrite (tcp_handshake_verdict "client" "server" "10.0.0.2" 80 "veth-rver" linked_world);
      [reflexivity|reflexivity|exact Hc|exact Hs|reflexivity].
  - rewrite (tcp_handshake_verdict "client" "server" "10.0.0.2" 80 "veth-rver" silent_world);
      [reflexivity|reflexivity|exact Hc|exact Hs|reflexivity].
Defined.

(** X15: when both namespaces exist, the capability does not fail and the
    ICMP datagram goes out, [test_mtu_fragmentation] passes exactly when the
    capture in node B yields two packets or more; with fewer it fails with
    an [AssertionError] that states how many it got. *)
Theorem mtu_fragmentation_verdict (node_a node_b dst_ip : string) (mtu payload_size : Z)
    (interface : string) (w : world) :
  w_faults w = [] →
  node_a ∈ k_netns (w_kernel w) →
  node_b ∈ k_netns (w_kernel w) →
  io_send (w_io w) node_a (IcmpData dst_ip (Z.max 0 payload_size)) = Returned tt →
  fst (test_mtu_fragmentation node_a node_b dst_ip mtu payload_size interface w)
  = match io_sniff (w_io w) node_b interface 2 (icmp_filter dst_ip) 5
            (w_wire w ++ [(node_a, IcmpData dst_ip (Z.max 0 payload_size))]) with
    | Returned packets =>
        if (2 <=? length packets)%nat then Ok true
        else Raise (Exn KAssertionError ("Expected fragmentation (>= 2 packets), got "
                                         +:+ pretty (Z.of_nat (length packets))))
    | Raised e => Raise (Exn KAssertionError ("Sniffer error: " +:+ exn_msg e))
    | Died => Raise (Exn KAssertionError "Sniffer on Node B failed.")
    end.
Proof.
  intros Hf Ha Hb Hsend.
  cbv beta iota zeta
    delta [test_mtu_fragmentation bind logger start sleep note try_except ret raise
           join terminate proc_ns proc_run any_exception].
  rewrite run_in_ns_no_fault by done.
  rewrite send_large_icmp_goes_through by done. cbn [fst snd].
  fold (icmp_filter dst_ip).
  rewrite target_wrapper_no_fault by done.
  unfold _sniff_packets, job_bind, sniff, job_ret. cbn -[icmp_filter Z.of_nat pretty Z.ltb].
  destruct (io_sniff _ _ _ _ _ _ _) as [ps|e|]; [|done..].
  cbn -[Z.of_nat pretty Z.ltb].
  destruct (Z.ltb_spec (Z.of_nat (length ps)) 2) as [Hlt|Hge];
    destruct ps as [|p [|q ps]]; try (simpl in Hlt; lia); try (simpl in Hge; lia); done.
Qed.

(** X15, witness: two fragments pass, a single packet fails. *)
Lemma mtu_fragmentation_passes_and_fails :
  fst (test_mtu_fragmentation "client" "server" "10.0.0.2" 1500 2000 "veth-rver"
         fragmenting_world) = Ok true
  ∧ fst (test_mtu_fragmentation "client" "server" "10.0.0.2" 1500 2000 "veth-rver"
           linked_world)
    = Raise (Exn KAssertionError "Expected fragmentation (>= 2 packets), got 1").
Proof.
  assert (Hc : "client" ∈ ["client"; "server"]) by (apply elem_of_cons; by left).
  assert (Hs : "server" ∈ ["client"; "server"]).
  { apply elem_of_cons. right. by apply list_elem_of_singleton. }
  split.
  - rewrite (mtu_fragmentation_verdict "client" "server" "10.0.0.2" 1500 2000 "veth-rver"
               fragmenting_world);
      [reflexivity|reflexivity|exact Hc|exact Hs|reflexivity].
  - rewrite (mtu_fragmentation_verdict "client" "server" "10.0.0.2" 1500 2000 "veth-rver"
               linked_world);
      [reflexivity|reflexivity|exact Hc|exact Hs|reflexivity].
Defined.

(** X16: when the stimulus side fails because node A's namespace does not
    exist, both assertions raise the executor's [Exception]; but only
    [test_tcp_handshake] terminates the capture unit it had started.
    [test_mtu_fragmentation] leaves it behind: it is neither terminated nor
    joined. *)
Theorem stimulus_failure_and_the_capture_unit (node_a node_b dst_ip : string)
    (dport mtu payload_size : Z) (interface : string) (w : world) :
  node_a ∉ k_netns (w_kernel w) →
  fst (test_tcp_handshake node_a node_b dst_ip dport interface w)
  = Raise (Exn KException (not_found_reason node_a))
  ∧ w_calls (snd (test_tcp_handshake node_a node_b dst_ip dport interface w))
    = (w_calls w ++ [CStart node_b; CSleep 1; CStart node_a; CJoin node_a;
                     CTerminate node_b])%list
  ∧ fst (test_mtu_fragmentation node_a node_b dst_ip mtu payload_size interface w)
    = Raise (Exn KException (not_found_reason node_a))
  ∧ w_calls (snd (test_mtu_fragmentation node_a node_b dst_ip mtu payload_size interface w))
    = (w_calls w ++ [CStart node_b; CSleep 1; CStart node_a; CJoin node_a])%list.
Proof.
  intros Hns.
  assert (Hrun : ∀ A (target : job A) w0,
    w_kernel w0 = w_kernel w →
    run_in_ns node_a target w0
    = (Raise (Exn KException (not_found_reason node_a)),
       add_call (CJoin node_a) (add_call (CStart node_a) w0))).
  { intros A target w0 Hk.
    unfold run_in_ns, start, join, note, bind, _target_wrapper. simpl.
    unfold netns_path_exists. simpl. rewrite Hk.
    by rewrite bool_decide_eq_false_2. }
  assert (Htcp : test_tcp_handshake node_a node_b dst_ip dport interface w
    = (Raise (Exn KException (not_found_reason node_a)),
       add_call (CTerminate node_b)
         (add_call (CJoin node_a) (add_call (CStart node_a)
            (add_call (CSleep 1) (add_call (CStart node_b)
               (add_log (Log INFO ("Testing TCP Handshake: " +:+ node_a +:+ " -> "
                                   +:+ node_b +:+ " (" +:+ dst_ip +:+ ":"
                                   +:+ pretty dport +:+ ")")) w))))))).
  { cbv beta iota zeta
      delta [test_tcp_handshake bind logger start sleep note try_except ret raise
             join terminate proc_ns proc_run any_exception].
    by rewrite Hrun. }
  assert (Hmtu : test_mtu_fragmentation node_a node_b dst_ip mtu payload_size interface w
    = (Raise (Exn KException (not_found_reason node_a)),
       add_call (CJoin node_a) (add_call (CStart node_a)
         (add_call (CSleep 1) (add_call (CStart node_b)
            (add_log (Log INFO ("Testing MTU Fragmentation: " +:+ node_a +:+ " -> "
                                +:+ node_b +:+ " (Size: " +:+ pretty payload_size
                                +:+ ", MTU: " +:+ pretty mtu +:+ ")")) w)))))).
  { cbv beta iota zeta
      delta [test_mtu_fragmentation bind logger start sleep note try_except ret raise
             join terminate proc_ns proc_run any_exception].
    by rewrite Hrun. }
  rewrite Htcp, Hmtu. simpl. by rewrite <- !app_assoc.
Qed.

(** X16, witness: the stimulus side is a node that does not exist. *)
Lemma ghost_stimulus_leaves_capture_unit :
  ("ghost" ∉ k_netns (w_kernel linked_world))
  ∧ w_calls (snd (test_mtu_fragmentation "ghost" "server" "10.0.0.2" 1500 2000 "veth-rver"
                    linked_world))
    = (w_calls linked_world
       ++ [CStart "server"; CSleep 1; CStart "ghost"; CJoin "ghost"])%list
  ∧ w_calls (snd (test_tcp_handshake "ghost" "server" "10.0.0.2" 80 "veth-rver"
                    linked_world))
    = (w_calls linked_world
       ++ [CStart "server"; CSleep 1; CStart "ghost"; CJoin "ghost";
           CTerminate "server"])%list.
Proof.
  assert (H : "ghost" ∉ k_netns (w_kernel linked_world)).
  { change (k_netns (w_kernel linked_world)) with ["client"; "server"].
    intros Hin. apply elem_of_cons in Hin as [Hin|Hin]; [discriminate Hin|].
    apply list_elem_of_singleton in Hin. discriminate Hin. }
  destruct (stimulus_failure_and_the_capture_unit "ghost" "server" "10.0.0.2" 80 1500 2000
              "veth-rver" linked_world H) as (_ & Htcp & _ & Hmtu).
  by repeat split.
Defined.

(** ** runner.py: the topology is always torn down *)

Lemma r_try_finally_cleanup {A} (body : R A) (s : list runner_event * world) :
  ∃ w',
    r_try_finally body
      (emit (RunnerInfo "Cleaning up topology...") ;;; r_lift cleanup)%run s
    = (fst (body s),
       ((fst (snd (body s)) ++ [RunnerInfo "Cleaning up topology..."])%list, w'))
    ∧ created_namespaces (w_mgr w') = []
    ∧ created_interfaces (w_mgr w') = []
    ∧ ndb_closed (w_mgr w') = true
    ∧ last (w_calls w') = Some CNdbClose.
Proof.
  unfold r_try_finally, r_bind, emit, r_lift.
  destruct (body s) as [r [evs w1]]. simpl.
  destruct (cleanup_spec w1) as (w' & chunks & ir & nr & E & Hn & Hi & Hc & Hcalls & _).
  rewrite E. exists w'. repeat split; try done.
  rewrite Hcalls, !app_assoc. apply last_snoc.
Qed.

(** X17: however [run_test] ends, with a verdict or with an exception from
    the setup or from [apply_profile], the topology has been torn down by
    then: [cleanup] was the last thing to run, the registry is empty and the
    NDB is closed. *)
Theorem run_test_always_cleans_up (impairment_profile : gmap string pyval)
    (evs : list runner_event) (w : world) :
  created_namespaces (w_mgr (snd (snd (run_test impairment_profile (evs, w))))) = []
  ∧ created_interfaces (w_mgr (snd (snd (run_test impairment_profile (evs, w))))) = []
  ∧ ndb_closed (w_mgr (snd (snd (run_test impairment_profile (evs, w))))) = true
  ∧ last (w_calls (snd (snd (run_test impairment_profile (evs, w))))) = Some CNdbClose
  ∧ last (fst (snd (run_test impairment_profile (evs, w))))
    = Some (RunnerInfo "Cleaning up topology...").
Proof.
  assert (Hrun : ∃ r evs' w',
    run_test impairment_profile (evs, w)
    = (r, ((evs' ++ [RunnerInfo "Cleaning up topology..."])%list, w'))
    ∧ created_namespaces (w_mgr w') = []
    ∧ created_interfaces (w_mgr w') = []
    ∧ ndb_closed (w_mgr w') = true
    ∧ last (w_calls w') = Some CNdbClose).
  { unfold run_test, setup_topology. unfold r_bind at 1. unfold r_lift at 1, new_manager.
    cbn [snd fst].
    match goal with |- context [r_try_finally ?b ?f ?s] =>
      destruct (r_try_finally_cleanup b s) as (w' & E & Hn & Hi & Hc & Hl)
    end.
    rewrite E. by eexists _, _, w'. }
  destruct Hrun as (r & evs' & w' & -> & Hn & Hi & Hc & Hl).
  cbn [snd fst]. repeat split; try done. apply last_snoc.
Qed.


(** ** sniffer.py: the packet logger stops at max_packets *)

Lemma packet_callback_run (ps : list captured) (self : PacketSniffer) :
  packet_count self ≤ max_packets self →
  let room := Z.to_nat (max_packets self - packet_count self) in
  packet_count (fold_left packet_callback ps self)
  = Z.min (max_packets self) (packet_count self + Z.of_nat (length ps))
  ∧ sn_log (fold_left packet_callback ps self)
    = (sn_log self ++ concat (map packet_lines (take room ps)))%list
  ∧ max_packets (fold_left packet_callback ps self) = max_packets self
  ∧ sn_interface (fold_left packet_callback ps self) = sn_interface self.
Proof.
  revert self. induction ps as [|p ps IH]; intros self Hle; simpl.
  - rewrite take_nil. simpl. rewrite app_nil_r. repeat split; lia.
  - unfold packet_callback at 2 4 6 8.
    destruct (Z.ltb_spec (packet_count self) (max_packets self)) as [Hlt|Hge].
    + destruct (IH (Sniffer (sn_interface self) (max_packets self) (packet_count self + 1)
                      (sn_log self ++ packet_lines p))) as (Hc & Hl & Hm & Hi);
        [simpl; lia|].
      simpl in *. rewrite Hc, Hl, Hm, Hi.
      replace (Z.to_nat (max_packets self - packet_count self))
        with (S (Z.to_nat (max_packets self - (packet_count self + 1)))) by lia.
      simpl. rewrite <- app_assoc. repeat split; try done. lia.
    + destruct (IH self Hle) as (Hc & Hl & Hm & Hi).
      rewrite Hc, Hl, Hm, Hi.
      replace (Z.to_nat (max_packets self - packet_count self)) with 0%nat by lia.
      simpl. rewrite app_nil_r. repeat split; try done. lia.
Qed.

(** X19: a sniffer logs the first [max_packets] packets it is handed, each
    in full, and nothing of the packets after them; its counter ends at the
    number of packets logged and never passes [max_packets] (with a
    negative [max_packets] nothing is logged at all).  This holds however
    the capture ends. *)
Theorem sniffer_logs_first_max_packets (interface : option string) (limit : Z)
    (arrivals : list captured) (ending : sniff_end) :
  packet_count (fst (sniffer_start (new_sniffer interface limit) arrivals ending))
  = Z.max 0 (Z.min limit (Z.of_nat (length arrivals)))
  ∧ sn_log (fst (sniffer_start (new_sniffer interface limit) arrivals ending))
    = concat (map packet_lines (take (Z.to_nat limit) arrivals)).
Proof.
  unfold sniffer_start. cbn [fst].
  destruct (Z.le_gt_cases 0 limit) as [Hpos|Hneg].
  - destruct (packet_callback_run arrivals (new_sniffer interface limit))
      as (Hc & Hl & _); [done|].
    simpl in Hc, Hl. rewrite Hc, Hl, Z.sub_0_r. split; [lia|done].
  - assert (Hidle : ∀ ps self,
      max_packets self ≤ packet_count self →
      fold_left packet_callback ps self = self).
    { induction ps as [|p ps IH]; intros self Hle; simpl; [done|].
      unfold packet_callback at 2.
      destruct (Z.ltb_spec (packet_count self) (max_packets self)); [lia|].
      by apply IH. }
    rewrite Hidle by (simpl; lia). simpl.
    replace (Z.to_nat limit) with 0%nat by lia. simpl. split; [lia|done].
Qed.

(** ** topology.py: the setup path when nothing is in its way *)

(** The primitives of the reference kernel on their success paths. *)

Lemma capability_run {A} (c : call) (natural : kernel → result A * kernel)
    (w : world) (a : A) (k' : kernel) :
  w_faults w = [] →
  natural (w_kernel w) = (Ok a, k') →
  capability c natural w = (Ok a, set_kernel k' (add_call c w)).
Proof. intros Hf Hn. rewrite capability_no_fault by done. by rewrite Hn. Qed.

Lemma NetNS_opens (name : string) (w : world) :
  w_faults w = [] →
  name ∈ k_netns (w_kernel w) →
  NetNS name w = (Ok (Some name), set_kernel (w_kernel w) (add_call (CNetNS name) w)).
Proof.
  intros Hf Hin. unfold NetNS. apply capability_run; [done|].
  by rewrite bool_decide_eq_true_2.
Qed.

Lemma NetNS_creates (name : string) (w : world) :
  w_faults w = [] →
  name ∉ k_netns (w_kernel w) →
  NetNS name w
  = (Ok (Some name),
     set_kernel (Kernel (k_netns (w_kernel w) ++ [name])
                        (k_links (w_kernel w) ++ [loopback name (k_next (w_kernel w))])
                        (S (k_next (w_kernel w))))
                (add_call (CNetNS name) w)).
Proof.
  intros Hf Hin. unfold NetNS. apply capability_run; [done|].
  by rewrite bool_decide_eq_false_2.
Qed.

Lemma lookup_first (ip : option string) (name : string) (w : world)
    (idx : nat) (rest : list nat) :
  w_faults w = [] →
  lookup_link (w_kernel w) ip name = idx :: rest →
  (l <- link_lookup ip name ;; first_index l) w
  = (Ok idx, add_call (CLinkLookup ip name) w).
Proof.
  intros Hf Hl. unfold bind. rewrite link_lookup_no_fault by done. by rewrite Hl.
Qed.

Lemma link_add_veth_pairs (ifname peer : string) (w : world) :
  w_faults w = [] →
  ifname ≠ peer →
  lookup_link (w_kernel w) None ifname = [] →
  lookup_link (w_kernel w) None peer = [] →
  link_add_veth ifname peer w
  = (Ok tt,
     set_kernel
       (let i := k_next (w_kernel w) in
        Kernel (k_netns (w_kernel w))
               (k_links (w_kernel w)
                ++ [Iface i ifname None (Some (S i)) false [] None;
                    Iface (S i) peer None (Some i) false [] None])
               (S (S i)))
       (add_call (CLinkAdd ifname peer) w)).
Proof.
  intros Hf Hne Ha Hb. unfold link_add_veth. apply capability_run; [done|].
  rewrite Ha, Hb. apply String.eqb_neq in Hne. rewrite Hne.
  by rewrite !bool_decide_eq_true_2.
Qed.

Lemma link_set_ns_moves (ip : option string) (idx : nat) (target : string) (w : world)
    (l : iface) (rest : list iface) :
  w_faults w = [] →
  List.filter (indexed ip idx) (k_links (w_kernel w)) = l :: rest →
  target ∈ k_netns (w_kernel w) →
  lookup_link (w_kernel w) (Some target) (if_name l) = [] →
  link_set_ns ip idx target w
  = (Ok tt,
     set_kernel
       (update_link ip idx
          (fun l => Iface (if_index l) (if_name l) (Some target) (if_peer l)
                          false [] (if_qdisc l)) (w_kernel w))
       (add_call (CLinkSetNs ip idx target) w)).
Proof.
  intros Hf Hl Hin Hfree. unfold link_set_ns. apply capability_run; [done|].
  rewrite Hl, Hfree. by rewrite !bool_decide_eq_true_2.
Qed.

Lemma link_set_up_raises_flag (ip : option string) (idx : nat) (w : world) :
  w_faults w = [] →
  has_index (w_kernel w) ip idx = true →
  link_set_up ip idx w
  = (Ok tt,
     set_kernel
       (update_link ip idx
          (fun l => Iface (if_index l) (if_name l) (if_ns l) (if_peer l)
                          true (if_addrs l) (if_qdisc l)) (w_kernel w))
       (add_call (CLinkUp ip idx) w)).
Proof.
  intros Hf Hi. unfold link_set_up. apply capability_run; [done|]. by rewrite Hi.
Qed.

Lemma addr_add_appends (ip : option string) (idx : nat) (address : string) (mask : Z)
    (w : world) (l : iface) (rest : list iface) :
  w_faults w = [] →
  List.filter (indexed ip idx) (k_links (w_kernel w)) = l :: rest →
  (address, mask) ∉ if_addrs l →
  addr_add ip idx address mask w
  = (Ok tt,
     set_kernel
       (update_link ip idx
          (fun l => Iface (if_index l) (if_name l) (if_ns l) (if_peer l)
                          (if_up l) (if_addrs l ++ [(address, mask)]) (if_qdisc l))
          (w_kernel w))
       (add_call (CAddrAdd ip idx address mask) w)).
Proof.
  intros Hf Hl Hnew. unfold addr_add. apply capability_run; [done|].
  rewrite Hl. by rewrite bool_decide_eq_false_2.
Qed.

Lemma netns_remove_drops (name : string) (w : world) :
  w_faults w = [] →
  name ∈ k_netns (w_kernel w) →
  netns_remove name w
  = (Ok tt,
     set_kernel
       (Kernel (List.filter (fun n => negb (String.eqb n name)) (k_netns (w_kernel w)))
               (drop_links (fun l => bool_decide (if_ns l = Some name))
                           (k_links (w_kernel w)))
               (k_next (w_kernel w)))
       (add_call (CNetnsRemove name) w)).
Proof.
  intros Hf Hin. unfold netns_remove. apply capability_run; [done|].
  by rewrite bool_decide_eq_true_2.
Qed.

(** Links that are [apart] from the two nodes are not touched, and not
    found, by what the setup path does. *)

Lemma filter_none {A} (P Q : A → bool) (ls : list A) :
  forallb Q ls = true →
  (∀ l, Q l = true → P l = false) →
  List.filter P ls = [].
Proof.
  intros Hall Hno. induction ls as [|l ls IH]; simpl; [done|].
  simpl in Hall. apply andb_true_iff in Hall as [Hl Hall].
  rewrite (Hno l Hl). by apply IH.
Qed.

Lemma update_none {A} (P Q : A → bool) (f : A → A) (ls : list A) :
  forallb Q ls = true →
  (∀ l, Q l = true → P l = false) →
  map (fun l => if P l then f l else l) ls = ls.
Proof.
  intros Hall Hno. induction ls as [|l ls IH]; simpl; [done|].
  simpl in Hall. apply andb_true_iff in Hall as [Hl Hall].
  rewrite (Hno l Hl). f_equal. by apply IH.
Qed.

Lemma apart_spec (k : kernel) (node_a node_b : string) (l : iface) :
  apart k node_a node_b l = true →
  (if_index l < k_next k)%nat
  ∧ (∀ p, if_peer l = Some p → (p < k_next k)%nat)
  ∧ if_ns l ≠ Some node_a ∧ if_ns l ≠ Some node_b
  ∧ named None (if_name_of node_a) l = false
  ∧ named None (if_name_of node_b) l = false.
Proof.
  unfold apart. rewrite !andb_true_iff, !negb_true_iff, !bool_decide_eq_false.
  intros (((((Hi & Hp) & Ha) & Hb) & Hna) & Hnb). apply Nat.ltb_lt in Hi.
  repeat split; try done.
  intros p Hpeer. rewrite Hpeer in Hp. by apply Nat.ltb_lt.
Qed.

Lemma apart_named (k : kernel) (node_a node_b : string) (ns name : string) (l : iface) :
  ns = node_a ∨ ns = node_b →
  apart k node_a node_b l = true →
  named (Some ns) name l = false.
Proof.
  intros Hns Hl. apply apart_spec in Hl as (_ & _ & Ha & Hb & _).
  unfold named. rewrite bool_decide_eq_false_2; [done|]. by destruct Hns as [-> | ->].
Qed.

Lemma apart_indexed (k : kernel) (node_a node_b : string) (ns : string) (idx : nat)
    (l : iface) :
  ns = node_a ∨ ns = node_b →
  apart k node_a node_b l = true →
  indexed (Some ns) idx l = false.
Proof.
  intros Hns Hl. apply apart_spec in Hl as (_ & _ & Ha & Hb & _).
  unfold indexed. rewrite bool_decide_eq_false_2; [done|]. by destruct Hns as [-> | ->].
Qed.

Lemma apart_indexed_new (k : kernel) (node_a node_b : string) (ns : option string)
    (idx : nat) (l : iface) :
  (k_next k ≤ idx)%nat →
  apart k node_a node_b l = true →
  indexed ns idx l = false.
Proof.
  intros Hidx Hl. apply apart_spec in Hl as (Hlt & _).
  unfold indexed. apply andb_false_iff. right. apply Nat.eqb_neq. lia.
Qed.

(** A [try] whose body returns, returns what the body does. *)
Lemma try_except_ok {A} (catches : exn → bool) (body : M A) (handler : exn → M A)
    (w w' : world) (a : A) :
  body w = (Ok a, w') → try_except catches body handler w = (Ok a, w').
Proof. intros H. unfold try_except. by rewrite H. Qed.

(** Endpoint names: never the loopback's, and distinct for distinct
    suffixes. *)
Lemma if_name_of_not_lo (node : string) : if_name_of node ≠ "lo".
Proof. unfold if_name_of. simpl. discriminate. Qed.

Lemma if_name_of_inj (node_a node_b : string) :
  py_suffix 4 node_a ≠ py_suffix 4 node_b → if_name_of node_a ≠ if_name_of node_b.
Proof. unfold if_name_of. intros Hne Heq. apply Hne. by simplify_eq/=. Qed.

(** The kernel's lookups and updates on a link table [ls ++ tl] whose
    front [ls] they do not concern. *)
Lemma update_link_tail {Q : iface → bool} (ns : option string) (idx : nat)
    (f : iface → iface) (netns : list string) (ls tl : list iface) (next : nat) :
  forallb Q ls = true →
  (∀ l, Q l = true → indexed ns idx l = false) →
  update_link ns idx f (Kernel netns (ls ++ tl) next)
  = Kernel netns (ls ++ map (fun l => if indexed ns idx l then f l else l) tl) next.
Proof.
  intros Hall Hno. unfold update_link. simpl. rewrite map_app.
  by rewrite (update_none _ _ _ _ Hall Hno).
Qed.

Lemma lookup_link_tail {Q : iface → bool} (ns : option string) (name : string)
    (netns : list string) (ls tl : list iface) (next : nat) :
  forallb Q ls = true →
  (∀ l, Q l = true → named ns name l = false) →
  lookup_link (Kernel netns (ls ++ tl) next) ns name
  = map if_index (List.filter (named ns name) tl).
Proof.
  intros Hall Hno. unfold lookup_link. simpl. rewrite List.filter_app.
  by rewrite (filter_none _ _ _ Hall Hno).
Qed.

Lemma filter_indexed_tail {Q : iface → bool} (ns : option string) (idx : nat)
    (ls tl : list iface) :
  forallb Q ls = true →
  (∀ l, Q l = true → indexed ns idx l = false) →
  List.filter (indexed ns idx) (ls ++ tl) = List.filter (indexed ns idx) tl.
Proof.
  intros Hall Hno. rewrite List.filter_app. by rewrite (filter_none _ _ _ Hall Hno).
Qed.

Lemma has_index_tail {Q : iface → bool} (ns : option string) (idx : nat)
    (netns : list string) (ls tl : list iface) (next : nat) :
  forallb Q ls = true →
  (∀ l, Q l = true → indexed ns idx l = false) →
  has_index (Kernel netns (ls ++ tl) next) ns idx = existsb (indexed ns idx) tl.
Proof.
  intros Hall Hno. unfold has_index. simpl. rewrite existsb_app.
  replace (existsb (indexed ns idx) ls) with false; [done|].
  symmetry. apply not_true_is_false. intros Hex.
  apply existsb_exists in Hex as (l & Hin & Hl).
  rewrite forallb_forall in Hall. by rewrite (Hno l (Hall l Hin)) in Hl.
Qed.

(** Proof steps for a run on a world given by its fields: [world_norm]
    brings the world back to its fields, [inert] shows that a test fails on
    every link that is [apart], [tests] settles the tests on the links
    written out, [kern] brings the kernel back to a link table written
    out, and [step] runs the first statement of a sequence. *)
Ltac world_norm :=
  unfold set_kernel, add_call, set_mgr, add_log;
  cbn [w_kernel w_mgr w_faults w_log w_calls w_io w_wire k_netns k_links k_next
       created_namespaces created_interfaces ndb_closed];
  rewrite <- ?app_assoc; cbn [app].

Ltac inert :=
  let l := fresh "l" in
  let Hl := fresh "Hl" in
  intros l Hl;
  first [ eapply apart_named; [|exact Hl]; auto; fail
        | eapply apart_indexed; [|exact Hl]; auto; fail
        | eapply apart_indexed_new; [|exact Hl]; lia
        | subst; apply apart_spec in Hl; tauto ].

Ltac tests :=
  repeat match goal with
  | |- context [bool_decide ?P] =>
      first [ rewrite (bool_decide_eq_true_2 P) by done
            | rewrite (bool_decide_eq_false_2 P) by congruence
            | rewrite (bool_decide_eq_true_2 P)
                by (rewrite ?elem_of_cons, ?elem_of_nil; lia)
            | rewrite (bool_decide_eq_false_2 P)
                by (rewrite ?elem_of_cons, ?elem_of_nil; lia) ]
  | |- context [String.eqb ?x ?y] =>
      first [ rewrite (String.eqb_refl x)
            | rewrite (proj2 (String.eqb_neq x y)) by congruence ]
  | |- context [Nat.eqb ?x ?y] =>
      first [ rewrite (Nat.eqb_refl x)
            | rewrite (proj2 (Nat.eqb_neq x y)) by lia ]
  end.

Ltac kern Hls :=
  world_norm;
  repeat first
    [ rewrite (update_link_tail _ _ _ _ _ _ _ Hls) by inert
    | rewrite (lookup_link_tail _ _ _ _ _ _ Hls) by inert
    | rewrite (filter_indexed_tail _ _ _ _ Hls) by inert
    | rewrite (has_index_tail _ _ _ _ _ _ Hls) by inert ];
  unfold named, indexed, loopback;
  repeat (progress (cbn [List.filter map existsb andb orb negb
                         if_index if_name if_ns if_peer if_up if_addrs if_qdisc app];
                    tests)).

Ltac step tac := etrans; [apply bind_ok; tac | cbv beta; world_norm].

(** The run of the setup path on a vacant host, statement by statement. *)
Lemma build_pair_run (node_a node_b ip_a ip_b : string) (subnet_mask : Z) (w : world) :
  w_faults w = [] →
  vacant (w_kernel w) node_a node_b = true →
  py_suffix 4 node_a ≠ py_suffix 4 node_b →
  ∃ w', build_pair node_a node_b ip_a ip_b subnet_mask w = (Ok tt, w')
        ∧ w_kernel w' = paired (w_kernel w) node_a node_b ip_a ip_b subnet_mask
        ∧ w_mgr w' = Manager (created_namespaces (w_mgr w) ++ [node_a; node_b])
                             (created_interfaces (w_mgr w) ++ [if_name_of node_a])
                             (ndb_closed (w_mgr w))
        ∧ w_faults w' = [].
Proof.
  intros Hf Hvac Hsuffix.
  assert (Hab : node_a ≠ node_b) by (intros ->; done).
  pose proof (if_name_of_inj _ _ Hsuffix) as Hends.
  pose proof (if_name_of_not_lo node_a) as Hlo_a.
  pose proof (if_name_of_not_lo node_b) as Hlo_b.
  unfold vacant in Hvac.
  rewrite !andb_true_iff, !negb_true_iff, !bool_decide_eq_false in Hvac.
  destruct Hvac as ((Ha & Hb) & Hls).
  unfold build_pair, link_nodes, paired. fold (if_name_of node_a) (if_name_of node_b).
  set (k0 := w_kernel w) in Hls.
  assert (Hn : k_next k0 = k_next (w_kernel w)) by done.
  assert (Hl : k_links k0 = k_links (w_kernel w)) by done.
  clearbody k0.
  destruct w as [[netns ls n] [nss ifs closed] faults log calls io wire].
  simpl in Hf, Ha, Hb, Hn, Hl. subst faults. world_norm. rewrite Hl in Hls. clear Hl.
  remember (if_name_of node_a) as ifa eqn:Hifa.
  remember (if_name_of node_b) as ifb eqn:Hifb.
  assert (Hb' : node_b ∉ (netns ++ [node_a])%list).
  { rewrite elem_of_app, list_elem_of_singleton. intros [?|?]; [done|congruence]. }
  assert (Hin_a : node_a ∈ (netns ++ [node_a; node_b])%list).
  { rewrite elem_of_app, !elem_of_cons. tauto. }
  assert (Hin_b : node_b ∈ (netns ++ [node_a; node_b])%list).
  { rewrite elem_of_app, !elem_of_cons. tauto. }
  eexists. split.
  - step ltac:(unfold create_node; apply try_except_ok;
               step ltac:(apply NetNS_creates; [done|world_norm; done]); reflexivity).
    step ltac:(unfold create_node; apply try_except_ok;
               step ltac:(apply NetNS_creates; [done|world_norm; done]); reflexivity).
    apply try_except_ok.
    step ltac:(reflexivity).
    step ltac:(apply link_add_veth_pairs; [done|done|kern Hls; done|kern Hls; done]).
    step ltac:(reflexivity).
    step ltac:(eapply lookup_first; [done|kern Hls; reflexivity]).
    step ltac:(eapply lookup_first; [done|kern Hls; reflexivity]).
    step ltac:(eapply link_set_ns_moves;
               [done|kern Hls; reflexivity|world_norm; done|kern Hls; done]).
    kern Hls.
    step ltac:(eapply link_set_ns_moves;
               [done|kern Hls; reflexivity|world_norm; done|kern Hls; done]).
    kern Hls.
    step ltac:(unfold configure_interface;
               step ltac:(apply NetNS_opens; [done|world_norm; done]);
               step ltac:(eapply lookup_first; [done|kern Hls; reflexivity]);
               step ltac:(eapply link_set_up_raises_flag; [done|kern Hls; reflexivity]);
               kern Hls;
               step ltac:(eapply addr_add_appends;
                          [done|kern Hls; reflexivity|apply not_elem_of_nil]);
               kern Hls;
               step ltac:(eapply lookup_first; [done|kern Hls; reflexivity]);
               eapply link_set_up_raises_flag; [done|kern Hls; reflexivity]).
    kern Hls.
    step ltac:(unfold configure_interface;
               step ltac:(apply NetNS_opens; [done|world_norm; done]);
               step ltac:(eapply lookup_first; [done|kern Hls; reflexivity]);
               step ltac:(eapply link_set_up_raises_flag; [done|kern Hls; reflexivity]);
               kern Hls;
               step ltac:(eapply addr_add_appends;
                          [done|kern Hls; reflexivity|apply not_elem_of_nil]);
               kern Hls;
               step ltac:(eapply lookup_first; [done|kern Hls; reflexivity]);
               eapply link_set_up_raises_flag; [done|kern Hls; reflexivity]).
    kern Hls.
    reflexivity.
  - subst ifa. repeat split.
Qed.

(** X20: the setup path when nothing is in its way.  On a host where
    neither node exists, the two endpoint names are free and differ, and
    the capability does not fail, [create_node] twice and [link_nodes]
    return normally and leave, next to what the host had, the two
    namespaces with their loopbacks up and the veth pair with one end in
    each namespace, up and carrying its address with the given mask; both
    node names and the first endpoint's name are registered. *)
Theorem build_pair_on_vacant_host (node_a node_b ip_a ip_b : string) (subnet_mask : Z)
    (w : world) :
  w_faults w = [] →
  vacant (w_kernel w) node_a node_b = true →
  py_suffix 4 node_a ≠ py_suffix 4 node_b →
  fst (build_pair node_a node_b ip_a ip_b subnet_mask w) = Ok tt
  ∧ w_kernel (snd (build_pair node_a node_b ip_a ip_b subnet_mask w))
    = paired (w_kernel w) node_a node_b ip_a ip_b subnet_mask
  ∧ created_namespaces (w_mgr (snd (build_pair node_a node_b ip_a ip_b subnet_mask w)))
    = (created_namespaces (w_mgr w) ++ [node_a; node_b])%list
  ∧ created_interfaces (w_mgr (snd (build_pair node_a node_b ip_a ip_b subnet_mask w)))
    = (created_interfaces (w_mgr w) ++ [if_name_of node_a])%list.
Proof.
  intros Hf Hvac Hsuffix.
  destruct (build_pair_run node_a node_b ip_a ip_b subnet_mask w Hf Hvac Hsuffix)
    as (w' & -> & Hk & Hm & _).
  cbn [fst snd]. rewrite Hk, Hm. done.
Qed.

(** X20, witness: the runner's two nodes on a fresh host. *)
Lemma client_server_on_fresh_host :
  w_faults fresh_world = []
  ∧ vacant (w_kernel fresh_world) "client" "server" = true
  ∧ py_suffix 4 "client" ≠ py_suffix 4 "server"
  ∧ k_links (w_kernel (snd (build_pair "client" "server" "10.0.0.1" "10.0.0.2" 24
                              fresh_world)))
    = [Iface 1 "lo" None None true [] None;
       Iface 2 "lo" (Some "client") None true [] None;
       Iface 3 "lo" (Some "server") None true [] None;
       Iface 4 "veth-ient" (Some "client") (Some 5%nat) true [("10.0.0.1", 24)] None;
       Iface 5 "veth-rver" (Some "server") (Some 4%nat) true [("10.0.0.2", 24)] None].
Proof.
  assert (Hsuffix : py_suffix 4 "client" ≠ py_suffix 4 "server") by (vm_compute; discriminate).
  destruct (build_pair_on_vacant_host "client" "server" "10.0.0.1" "10.0.0.2" 24
              fresh_world eq_refl eq_refl Hsuffix) as (_ & Hk & _).
  split; [reflexivity|]. split; [reflexivity|]. split; [exact Hsuffix|].
  rewrite Hk. reflexivity.
Defined.

(** ** topology.py: setup and cleanup together *)

(** Removing a namespace from a link table [ls ++ tl] whose front has no
    link in it and no peer of such a link. *)
Lemma filter_all {A} (P Q : A → bool) (ls : list A) :
  forallb Q ls = true →
  (∀ l, Q l = true → P l = true) →
  List.filter P ls = ls.
Proof.
  intros Hall Hyes. induction ls as [|l ls IH]; simpl; [done|].
  simpl in Hall. apply andb_true_iff in Hall as [Hl Hall].
  rewrite (Hyes l Hl). f_equal. by apply IH.
Qed.

Lemma drop_links_tail {Q : iface → bool} (doomed : iface → bool) (ls tl : list iface) :
  forallb Q ls = true →
  (∀ l, Q l = true → doomed l = false) →
  (∀ l p, Q l = true → if_peer l = Some p →
          p ∉ map if_index (List.filter doomed tl)) →
  drop_links doomed (ls ++ tl) = (ls ++ drop_links doomed tl)%list.
Proof.
  intros Hall Hno Hpeer. unfold drop_links.
  rewrite !List.filter_app, (filter_none _ _ _ Hall Hno). cbn [app].
  f_equal. apply (filter_all _ _ _ Hall).
  intros l Hl. rewrite (Hno l Hl). cbn [negb andb].
  destruct (if_peer l) as [p|] eqn:Hp; [|done].
  rewrite bool_decide_eq_false_2; [done|]. by apply (Hpeer l p).
Qed.

Lemma other_names_stay (name : string) (netns tl : list string) :
  name ∉ netns →
  List.filter (fun n => negb (String.eqb n name)) (netns ++ tl)
  = (netns ++ List.filter (fun n => negb (String.eqb n name)) tl)%list.
Proof.
  intros Hnot. rewrite List.filter_app. f_equal.
  induction netns as [|m ms IH]; simpl; [done|].
  apply not_elem_of_cons in Hnot as [Hne Hnot].
  rewrite (proj2 (String.eqb_neq m name)) by done. simpl. f_equal. by apply IH.
Qed.

(** [evaluate] computes on the links written out; [removal] brings the
    kernel left by [netns.remove] back to a link table written out. *)
Ltac evaluate :=
  unfold named, indexed, loopback, drop_links;
  repeat (progress (cbn [List.filter map existsb andb orb negb
                         if_index if_name if_ns if_peer if_up if_addrs if_qdisc app];
                    tests)).

Ltac removal Hls Hname :=
  world_norm;
  rewrite (other_names_stay _ _ _ Hname);
  rewrite (drop_links_tail _ _ _ Hls);
  [ evaluate
  | let l := fresh "l" in
    let Hl := fresh "Hl" in
    intros l Hl; apply apart_spec in Hl as (_ & _ & ? & ? & _);
    by rewrite bool_decide_eq_false_2
  | let l := fresh "l" in
    let p := fresh "p" in
    let Hl := fresh "Hl" in
    let Hp := fresh "Hp" in
    intros l p Hl Hp; apply apart_spec in Hl as (_ & Hl & _);
    specialize (Hl p Hp); evaluate;
    rewrite ?elem_of_cons, ?elem_of_nil; lia ].

(** [cleanup] on what the setup path has built. *)
Lemma cleanup_after_pair (k0 : kernel) (node_a node_b ip_a ip_b : string)
    (subnet_mask : Z) (closed : bool) (w : world) :
  w_faults w = [] →
  vacant k0 node_a node_b = true →
  py_suffix 4 node_a ≠ py_suffix 4 node_b →
  w_kernel w = paired k0 node_a node_b ip_a ip_b subnet_mask →
  w_mgr w = Manager [node_a; node_b] [if_name_of node_a] closed →
  ∃ w', cleanup w = (Ok tt, w')
        ∧ w_kernel w'
          = Kernel (k_netns k0) (k_links k0) (S (S (S (S (k_next k0)))))
        ∧ w_mgr w' = Manager [] [] true.
Proof.
  intros Hf Hvac Hsuffix Hk Hm.
  assert (Hab : node_a ≠ node_b) by (intros ->; done).
  pose proof (if_name_of_inj _ _ Hsuffix) as Hends.
  pose proof (if_name_of_not_lo node_a) as Hlo_a.
  pose proof (if_name_of_not_lo node_b) as Hlo_b.
  unfold vacant in Hvac.
  rewrite !andb_true_iff, !negb_true_iff, !bool_decide_eq_false in Hvac.
  destruct Hvac as ((Ha & Hb) & Hls).
  destruct w as [k mgr faults log calls io wire].
  simpl in Hf, Hk, Hm. subst faults k mgr. unfold paired.
  remember (k_next k0) as n eqn:Hn. symmetry in Hn.
  remember (k_links k0) as ls eqn:Hl.
  remember (k_netns k0) as netns eqn:Hns.
  remember (if_name_of node_a) as ifa eqn:Hifa.
  remember (if_name_of node_b) as ifb eqn:Hifb.
  eexists. split.
  - unfold cleanup.
    step ltac:(reflexivity).
    step ltac:(reflexivity).
    step ltac:(reflexivity).
    cbn [for_each].
    step ltac:(step ltac:(unfold cleanup_interface; apply try_except_ok;
                          step ltac:(apply link_lookup_no_fault; done);
                          kern Hls; reflexivity);
               reflexivity).
    step ltac:(reflexivity).
    cbn [for_each].
    step ltac:(step ltac:(unfold cleanup_namespace; apply try_except_ok;
                          step ltac:(apply netns_remove_drops;
                                     [done|world_norm; rewrite elem_of_app, !elem_of_cons; tauto]);
                          reflexivity);
               removal Hls Ha;
               step ltac:(unfold cleanup_namespace; apply try_except_ok;
                          step ltac:(apply netns_remove_drops;
                                     [done|world_norm; rewrite elem_of_app, !elem_of_cons; tauto]);
                          reflexivity);
               removal Hls Hb;
               reflexivity).
    rewrite !app_nil_r.
    step ltac:(reflexivity).
    reflexivity.
  - split; reflexivity.
Qed.

(** X21: setup followed by cleanup is a round trip on the host.  With a
    new manager, on a host where neither node exists and the endpoint names
    are free and differ, and with a capability that does not fail,
    [create_node] twice, [link_nodes] and [cleanup] return normally and
    leave the host's namespaces and links exactly as they were; the
    registry is empty and the NDB closed. *)
Theorem setup_then_cleanup_restores_host (node_a node_b ip_a ip_b : string)
    (subnet_mask : Z) (w : world) :
  w_faults w = [] →
  vacant (w_kernel w) node_a node_b = true →
  py_suffix 4 node_a ≠ py_suffix 4 node_b →
  fst ((new_manager ;;; build_pair node_a node_b ip_a ip_b subnet_mask ;;; cleanup) w)
  = Ok tt
  ∧ k_netns (w_kernel (snd ((new_manager ;;;
                             build_pair node_a node_b ip_a ip_b subnet_mask ;;;
                             cleanup) w)))
    = k_netns (w_kernel w)
  ∧ k_links (w_kernel (snd ((new_manager ;;;
                             build_pair node_a node_b ip_a ip_b subnet_mask ;;;
                             cleanup) w)))
    = k_links (w_kernel w)
  ∧ w_mgr (snd ((new_manager ;;;
                 build_pair node_a node_b ip_a ip_b subnet_mask ;;;
                 cleanup) w))
    = Manager [] [] true.
Proof.
  intros Hf Hvac Hsuffix.
  assert (Hrun : ∃ w', (new_manager ;;;
                        build_pair node_a node_b ip_a ip_b subnet_mask ;;;
                        cleanup) w = (Ok tt, w')
                       ∧ k_netns (w_kernel w') = k_netns (w_kernel w)
                       ∧ k_links (w_kernel w') = k_links (w_kernel w)
                       ∧ w_mgr w' = Manager [] [] true).
  { destruct (build_pair_run node_a node_b ip_a ip_b subnet_mask
                (set_mgr (Manager [] [] false) w) Hf Hvac Hsuffix)
      as (w1 & E1 & Hk1 & Hm1 & Hf1).
    destruct (cleanup_after_pair (w_kernel w) node_a node_b ip_a ip_b subnet_mask false
                w1 Hf1 Hvac Hsuffix Hk1 Hm1) as (w2 & E2 & Hk2 & Hm2).
    exists w2. split.
    - etrans; [apply bind_ok; reflexivity|]. cbv beta.
      etrans; [apply bind_ok; exact E1|]. exact E2.
    - by rewrite Hk2. }
  destruct Hrun as (w' & -> & Hns & Hl & Hm). done.
Qed.

(** X21, witness: the runner's two nodes, set up on a fresh host and
    cleaned up again. *)
Lemma client_server_setup_and_cleanup :
  w_faults fresh_world = []
  ∧ vacant (w_kernel fresh_world) "client" "server" = true
  ∧ py_suffix 4 "client" ≠ py_suffix 4 "server"
  ∧ k_links (w_kernel (snd ((new_manager ;;;
                             build_pair "client" "server" "10.0.0.1" "10.0.0.2" 24 ;;;
                             cleanup) fresh_world)))
    = [Iface 1 "lo" None None true [] None].
Proof.
  assert (Hsuffix : py_suffix 4 "client" ≠ py_suffix 4 "server") by (vm_compute; discriminate).
  destruct (setup_then_cleanup_restores_host "client" "server" "10.0.0.1" "10.0.0.2" 24
              fresh_world eq_refl eq_refl Hsuffix) as (_ & _ & Hl & _).
  split; [reflexivity|]. split; [reflexivity|]. split; [exact Hsuffix|].
  rewrite Hl. reflexivity.
Defined.
